(** * ESP32 WiFi bridge (firmware/esp32-wifi/src/main.cpp)

    A shallow embedding of the serial command bridge: the line accumulator
    of [loop], the command dispatch of [processCommand], the handlers
    [connectToWiFi], [getStatus], [scanNetworks], [connectTCP], [sendTCP]
    and the inbound-data poll of [loop].

    The Arduino [String] is a sequence of bytes; [int] variables are [Z].
    The network stack ([WiFi], [tcpClient]) is an abstract provider; every
    call the firmware makes on it, on [Serial] and on [delay] is recorded,
    in order, in a trace. *)

From Stdlib Require Import List ZArith Lia Bool Ascii String.
From Stdlib Require Import DecimalString.
From Stdlib Require DecimalZ.
From Equations Require Import Equations.
Import ListNotations.
Local Open Scope Z_scope.

Set Implicit Arguments.

(* ================================================================== *)
(** ** Arduino [String] *)
(* ================================================================== *)

(** The contents of an Arduino [String]: its bytes, in order, without the
    NUL that ends the buffer.  The operations below follow the Arduino
    core: the ones built on [strcmp], [strchr], [strrchr] and [atol] read
    the buffer as a C string and stop at the first NUL byte in it. *)
Definition WString : Type := list ascii.

(** A string literal of the source. *)
Definition lit (s : string) : WString := list_ascii_of_string s.

Module WStr.

(** [s.length()] *)
Definition length (s : WString) : Z := Z.of_nat (List.length s).

(** [c == '\0'] *)
Definition is_nul (c : ascii) : bool := Ascii.eqb c "000".

(** [s.c_str()] read as a C string: the bytes before the first NUL. *)
Fixpoint c_str (s : WString) : WString :=
  match s with
  | [] => []
  | x :: s' => if is_nul x then [] else x :: c_str s'
  end.

(** [a == b], which is [strcmp(a, b) == 0]: the two are compared byte by
    byte up to the first NUL, the end of a buffer counting as one. *)
Fixpoint equals (a b : WString) : bool :=
  match a, b with
  | [], [] => true
  | [], y :: _ => is_nul y
  | x :: _, [] => is_nul x
  | x :: a', y :: b' =>
      if is_nul x then is_nul y else Ascii.eqb x y && equals a' b'
  end.

(** [s.startsWith(p)] *)
Fixpoint startsWith (s p : WString) {struct p} : bool :=
  match p with
  | [] => true
  | y :: p' =>
      match s with
      | [] => false
      | x :: s' => Ascii.eqb x y && startsWith s' p'
      end
  end.

(** [strchr]: the index of the first [ch] in the C string [s], counting
    the head of [s] as [base]; [-1] when [ch] does not occur before the
    first NUL. *)
Fixpoint scan_first (ch : ascii) (s : WString) (base : Z) : Z :=
  match s with
  | [] => if is_nul ch then base else -1
  | x :: s' =>
      if Ascii.eqb x ch then base
      else if is_nul x then -1
      else scan_first ch s' (base + 1)
  end.

(** [s.indexOf(ch, fromIndex)]: the first occurrence at or after
    [fromIndex] and before any NUL from there on, [-1] when there is none
    or [fromIndex] is past the end. *)
Definition indexOf (s : WString) (ch : ascii) (fromIndex : Z) : Z :=
  if length s <=? fromIndex then -1
  else scan_first ch (skipn (Z.to_nat fromIndex) s) fromIndex.

(** [strrchr]: the index of the last [ch] in the C string [s], counting
    the head of [s] as [base]; [found] when [ch] does not occur before
    the first NUL. *)
Fixpoint scan_last (ch : ascii) (s : WString) (base found : Z) : Z :=
  match s with
  | [] => if is_nul ch then base else found
  | x :: s' =>
      if is_nul x then (if is_nul ch then base else found)
      else scan_last ch s' (base + 1) (if Ascii.eqb x ch then base else found)
  end.

(** [s.lastIndexOf(ch)]: the last occurrence before the first NUL, [-1]
    when there is none or [s] is empty. *)
Definition lastIndexOf (s : WString) (ch : ascii) : Z :=
  if length s <=? 0 then -1 else scan_last ch s 0 (-1).

(** [s.substring(left, right)]: the bytes at [left .. right-1]; the two
    bounds are swapped when [left > right], [right] is clipped to the
    length, and the result is empty when [left] is at or past the end.
    The bounds are [unsigned int]; the firmware only passes non-negative
    values. *)
Definition substring (s : WString) (left right : Z) : WString :=
  let (l, r) := if right <? left then (right, left) else (left, right) in
  if length s <=? l then []
  else
    let r := if length s <? r then length s else r in
    firstn (Z.to_nat (r - l)) (skipn (Z.to_nat l) s).

(** [s.substring(left)]: from [left] to the end. *)
Definition substring_from (s : WString) (left : Z) : WString :=
  substring s left (length s).

(** C [isspace] in the default locale: space, and HT, LF, VT, FF, CR. *)
Definition isspace (c : ascii) : bool :=
  let n := Z.of_nat (nat_of_ascii c) in
  (n =? 32) || ((9 <=? n) && (n <=? 13)).

Fixpoint drop_space (s : WString) : WString :=
  match s with
  | [] => []
  | x :: s' => if isspace x then drop_space s' else s
  end.

(** [s.trim()]: leading and trailing white space removed. *)
Definition trim (s : WString) : WString :=
  rev (drop_space (rev (drop_space s))).

(** The value of a decimal digit, if [c] is one. *)
Definition digit (c : ascii) : option Z :=
  let n := Z.of_nat (nat_of_ascii c) in
  if (48 <=? n) && (n <=? 57) then Some (n - 48) else None.

(** The number read from the leading digits of [s], starting from [acc]. *)
Fixpoint digits (s : WString) (acc : Z) : Z :=
  match s with
  | [] => acc
  | x :: s' =>
      match digit x with
      | Some d => digits s' (10 * acc + d)
      | None => acc
      end
  end.

Definition LONG_MAX : Z := 2147483647.
Definition LONG_MIN : Z := -2147483648.

(** [s.toInt()], which is C [atol]: white space is skipped, then an
    optional sign and the leading decimal digits are read; whatever
    follows is ignored, and the value is [0] when there is no digit.
    A value outside the 32-bit [long] saturates. *)
Definition toInt (s : WString) : Z :=
  let v :=
    match drop_space s with
    | [] => 0
    | x :: s' =>
        if Ascii.eqb x "-" then - digits s' 0
        else if Ascii.eqb x "+" then digits s' 0
        else digits (x :: s') 0
    end in
  Z.max LONG_MIN (Z.min LONG_MAX v).

End WStr.

(** What [Serial.print(n)] writes for an [int]: its decimal digits, with a
    leading [-] when negative. *)
Definition print_int (n : Z) : WString :=
  list_ascii_of_string (NilZero.string_of_int (Z.to_int n)).

(* ================================================================== *)
(** ** Line accumulator ([loop], the serial read loop) *)
(* ================================================================== *)

(** [c == '\n' || c == '\r'] *)
Definition is_terminator (c : ascii) : bool :=
  Ascii.eqb c "010" || Ascii.eqb c "013".

(** One iteration of the read loop on the byte [c]: the line handed to
    [processCommand], if any, and the new [serialBuffer]. *)
Definition accumulate (c : ascii) (serialBuffer : WString)
  : option WString * WString :=
  if is_terminator c then
    if 0 <? WStr.length serialBuffer then (Some serialBuffer, [])
    else (None, serialBuffer)
  else (None, serialBuffer ++ [c]).

(** The read loop over a sequence of bytes: the lines handed to
    [processCommand], in order, and the final [serialBuffer]. *)
Fixpoint feed_all (input : list ascii) (serialBuffer : WString)
  : list WString * WString :=
  match input with
  | [] => ([], serialBuffer)
  | c :: rest =>
      let (line, buf) := accumulate c serialBuffer in
      let (lines, final) := feed_all rest buf in
      (match line with Some l => l :: lines | None => lines end, final)
  end.

(** The specification's reading of the accumulator: the input split at
    every terminator (k terminators give k+1 pieces, possibly empty). *)
Fixpoint split_on (sep : ascii -> bool) (s : list ascii) : list (list ascii) :=
  match s with
  | [] => [[]]
  | c :: r =>
      if sep c then [] :: split_on sep r
      else
        match split_on sep r with
        | [] => [[c]]
        | p :: ps => (c :: p) :: ps
        end
  end.

Definition non_empty (s : list ascii) : bool :=
  match s with [] => false | _ :: _ => true end.

(** The pieces of the split that are not empty, in order. *)
Definition nonempty_splits (s : list ascii) : list (list ascii) :=
  filter non_empty (split_on is_terminator s).

(** The pending partial line as a list of at most one piece. *)
Definition pending (buf : WString) : list WString :=
  if non_empty buf then [buf] else [].

(* ================================================================== *)
(** ** The network provider and the trace of calls *)
(* ================================================================== *)

(** The calls the firmware makes on its collaborators. *)
Inductive Event : Type :=
| EvSerialPrint (s : WString)            (* Serial.print(s) *)
| EvSerialPrintln (s : WString)          (* Serial.println(s) *)
| EvDelay (ms : Z)                       (* delay(ms) *)
| EvWiFiBegin (ssid password : WString)  (* WiFi.begin(ssid, password) *)
| EvWiFiStatus                           (* WiFi.status() *)
| EvWiFiDisconnect                       (* WiFi.disconnect() *)
| EvWiFiLocalIP                          (* WiFi.localIP() *)
| EvWiFiSSID                             (* WiFi.SSID() *)
| EvWiFiRSSI                             (* WiFi.RSSI() *)
| EvWiFiScan                             (* WiFi.scanNetworks() *)
| EvWiFiSSIDAt (i : Z)                   (* WiFi.SSID(i) *)
| EvWiFiRSSIAt (i : Z)                   (* WiFi.RSSI(i) *)
| EvWiFiEncryptionAt (i : Z)             (* WiFi.encryptionType(i) *)
| EvTcpConnected                         (* tcpClient.connected() *)
| EvTcpAvailable                         (* tcpClient.available() *)
| EvTcpRead                              (* tcpClient.read() *)
| EvTcpConnect (host : WString) (port : Z) (* tcpClient.connect(host, port),
                                            with the [int] that is passed *)
| EvTcpPrint (data : WString)            (* tcpClient.print(data) *)
| EvTcpStop.                             (* tcpClient.stop() *)

(** The network stack behind [WiFi] and [tcpClient], over a state [N] of
    its own, with the two codes of its headers that the source names: the
    status [WL_CONNECTED] and the cipher [WIFI_AUTH_OPEN].  Queries read
    the state, commands change it, and the state otherwise moves only
    while the firmware sleeps ([elapse]).  Reading takes one byte out of
    the bytes that are buffered. *)
Class NetworkProvider (N : Type) : Type := {
  WL_CONNECTED : Z;
  WIFI_AUTH_OPEN : Z;
  wifi_begin : WString -> WString -> N -> N;
  wifi_status : N -> Z;
  wifi_disconnect : N -> N;
  wifi_localIP : N -> WString;
  wifi_SSID : N -> WString;
  wifi_RSSI : N -> Z;
  wifi_scanNetworks : N -> Z * N;
  wifi_SSID_at : N -> Z -> WString;
  wifi_RSSI_at : N -> Z -> Z;
  wifi_encryptionType : N -> Z -> Z;
  tcp_connected : N -> bool;
  tcp_available : N -> Z;
  tcp_read : N -> ascii * N;
  tcp_connect : WString -> Z -> N -> bool * N;
  tcp_print : WString -> N -> N;
  tcp_stop : N -> N;
  elapse : Z -> N -> N;
  tcp_available_nonneg : forall n, 0 <= tcp_available n;
  tcp_read_consumes : forall n,
    tcp_available n <> 0 ->
    tcp_available (snd (tcp_read n)) = tcp_available n - 1
}.

(** The lines written to [Serial] by a trace: [print] extends the current
    line, [println] extends and ends it.  Returns the complete lines and
    what is left of the current one. *)
Fixpoint render (t : list Event) (cur : WString) : list WString * WString :=
  match t with
  | [] => ([], cur)
  | EvSerialPrint s :: t' => render t' (cur ++ s)
  | EvSerialPrintln s :: t' =>
      let (ls, c) := render t' [] in ((cur ++ s) :: ls, c)
  | _ :: t' => render t' cur
  end.

Definition serial_lines (t : list Event) : list WString := fst (render t []).

(** The time slept in a trace, in milliseconds. *)
Fixpoint slept (t : list Event) : Z :=
  match t with
  | [] => 0
  | EvDelay ms :: t' => ms + slept t'
  | _ :: t' => slept t'
  end.

(** Whether an event is a call on the association side of the provider. *)
Definition is_wifi_event (e : Event) : bool :=
  match e with
  | EvWiFiBegin _ _ | EvWiFiStatus | EvWiFiDisconnect | EvWiFiLocalIP
  | EvWiFiSSID | EvWiFiRSSI | EvWiFiScan | EvWiFiSSIDAt _ | EvWiFiRSSIAt _
  | EvWiFiEncryptionAt _ => true
  | _ => false
  end.

(* ================================================================== *)
(** ** The firmware *)
(* ================================================================== *)

Section Firmware.

Context {N : Type} {NP : NetworkProvider N}.

(** A handler returns a value, the new state of the provider and the
    calls it made. *)
Definition M (A : Type) : Type := N -> A * N * list Event.

Definition ret {A} (a : A) : M A := fun n => (a, n, []).

Definition bind {A B} (m : M A) (k : A -> M B) : M B :=
  fun n =>
    let '(a, n1, e1) := m n in
    let '(b, n2, e2) := k a n1 in
    (b, n2, e1 ++ e2).

Notation "x <- m ;; k" := (bind m (fun x => k))
  (at level 61, m at next level, right associativity).
Notation "m ;; k" := (bind m (fun _ => k))
  (at level 61, right associativity).

Definition query {A} (e : Event) (f : N -> A) : M A :=
  fun n => (f n, n, [e]).

Definition command (e : Event) (f : N -> N) : M unit :=
  fun n => (tt, f n, [e]).

Definition call {A} (e : Event) (f : N -> A * N) : M A :=
  fun n => (fst (f n), snd (f n), [e]).

Definition Serial_print (s : WString) : M unit :=
  fun n => (tt, n, [EvSerialPrint s]).
Definition Serial_println (s : WString) : M unit :=
  fun n => (tt, n, [EvSerialPrintln s]).
Definition delay (ms : Z) : M unit := command (EvDelay ms) (elapse ms).

Definition WiFi_begin (ssid password : WString) : M unit :=
  command (EvWiFiBegin ssid password) (wifi_begin ssid password).
Definition WiFi_status : M Z := query EvWiFiStatus wifi_status.
Definition WiFi_disconnect : M unit := command EvWiFiDisconnect wifi_disconnect.
Definition WiFi_localIP : M WString := query EvWiFiLocalIP wifi_localIP.
Definition WiFi_SSID : M WString := query EvWiFiSSID wifi_SSID.
Definition WiFi_RSSI : M Z := query EvWiFiRSSI wifi_RSSI.
Definition WiFi_scanNetworks : M Z := call EvWiFiScan wifi_scanNetworks.
Definition WiFi_SSID_at (i : Z) : M WString :=
  query (EvWiFiSSIDAt i) (fun n => wifi_SSID_at n i).
Definition WiFi_RSSI_at (i : Z) : M Z :=
  query (EvWiFiRSSIAt i) (fun n => wifi_RSSI_at n i).
Definition WiFi_encryptionType (i : Z) : M Z :=
  query (EvWiFiEncryptionAt i) (fun n => wifi_encryptionType n i).

Definition tcpClient_connected : M bool := query EvTcpConnected tcp_connected.
Definition tcpClient_available : M Z := query EvTcpAvailable tcp_available.
Definition tcpClient_read : M ascii := call EvTcpRead tcp_read.
Definition tcpClient_connect (host : WString) (port : Z) : M bool :=
  call (EvTcpConnect host port) (tcp_connect host port).
Definition tcpClient_print (data : WString) : M unit :=
  command (EvTcpPrint data) (tcp_print data).
Definition tcpClient_stop : M unit := command EvTcpStop tcp_stop.

(** A value together with the proof that it is the value of [a]. *)
Definition inspect {A} (a : A) : {b : A | a = b} := exist _ a eq_refl.

(** Iterations the polling loop of [connectToWiFi] can still make. *)
Definition attempts_left (attempts : Z) : nat := Z.to_nat (20 - attempts).
Arguments attempts_left : simpl never.

(** The polling loop of [connectToWiFi]:
    [while (WiFi.status() != WL_CONNECTED && attempts < 20)
       { delay(500); Serial.print("."); attempts++; }].
    It returns the final [attempts]. *)
Equations? wait_connected (attempts : Z) (n : N)
  : Z * N * list Event by wf (attempts_left attempts) lt :=
  wait_connected attempts n
    with inspect (negb (wifi_status n =? WL_CONNECTED) && (attempts <? 20)) := {
    | exist _ true _ =>
        let body := (delay 500 ;; Serial_print (lit ".")) n in
        let rest := wait_connected (attempts + 1) (snd (fst body)) in
        (fst (fst rest), snd (fst rest), EvWiFiStatus :: snd body ++ snd rest)
    | exist _ false _ => (attempts, n, [EvWiFiStatus]) }.
Proof.
  unfold attempts_left.
  apply andb_true_iff in e. destruct e as [_ e].
  apply Z.ltb_lt in e. lia.
Qed.

Definition connectToWiFi (ssid password : WString) : M unit :=
  Serial_print (lit "CONNECTING:") ;;
  Serial_println ssid ;;
  WiFi_begin ssid password ;;
  _ <- wait_connected 0 ;;
  Serial_println [] ;;
  st <- WiFi_status ;;
  if st =? WL_CONNECTED then
    Serial_println (lit "OK:Connected") ;;
    Serial_print (lit "IP:") ;;
    ip <- WiFi_localIP ;;
    Serial_println ip
  else
    Serial_println (lit "ERROR:Connection failed").

Definition getStatus : M unit :=
  st <- WiFi_status ;;
  if st =? WL_CONNECTED then
    Serial_println (lit "STATUS:CONNECTED") ;;
    Serial_print (lit "SSID:") ;;
    ssid <- WiFi_SSID ;;
    Serial_println ssid ;;
    Serial_print (lit "IP:") ;;
    ip <- WiFi_localIP ;;
    Serial_println ip ;;
    Serial_print (lit "RSSI:") ;;
    rssi <- WiFi_RSSI ;;
    Serial_print (print_int rssi) ;;
    Serial_println (lit " dBm")
  else
    Serial_println (lit "STATUS:DISCONNECTED").

(** The body of the result loop of [scanNetworks] for the index [i]. *)
Definition print_network (i : Z) : M unit :=
  Serial_print (lit "NETWORK:") ;;
  ssid <- WiFi_SSID_at i ;;
  Serial_print ssid ;;
  Serial_print (lit ":") ;;
  rssi <- WiFi_RSSI_at i ;;
  Serial_print (print_int rssi) ;;
  Serial_print (lit ":") ;;
  enc <- WiFi_encryptionType i ;;
  Serial_println (if enc =? WIFI_AUTH_OPEN then lit "OPEN" else lit "SECURED").

(** [for (int i = from; i < n; i++) print_network(i)], with [count] the
    number of iterations left. *)
Fixpoint print_networks (count : nat) (from : Z) : M unit :=
  match count with
  | O => ret tt
  | S k => print_network from ;; print_networks k (from + 1)
  end.

Definition scanNetworks : M unit :=
  Serial_println (lit "SCANNING...") ;;
  n <- WiFi_scanNetworks ;;
  if n =? 0 then
    Serial_println (lit "SCAN:No networks found")
  else
    Serial_print (lit "SCAN:Found ") ;;
    Serial_print (print_int n) ;;
    Serial_println (lit " networks") ;;
    print_networks (Z.to_nat n) 0.

Definition connectTCP (host : WString) (port : Z) : M unit :=
  Serial_print (lit "TCP:Connecting to ") ;;
  Serial_print host ;;
  Serial_print (lit ":") ;;
  Serial_println (print_int port) ;;
  ok <- tcpClient_connect host port ;;
  if ok then Serial_println (lit "OK:TCP connected")
  else Serial_println (lit "ERROR:TCP connection failed").

Definition sendTCP (data : WString) : M unit :=
  up <- tcpClient_connected ;;
  if up then
    tcpClient_print data ;;
    Serial_println (lit "OK:Data sent")
  else
    Serial_println (lit "ERROR:Not connected").

(** Bytes the socket still holds, the measure of the drain loop. *)
Definition bytes_buffered (n : N) : nat := Z.to_nat (tcp_available n).
Arguments bytes_buffered : simpl never.

(** The drain loop of [loop]:
    [while (tcpClient.available()) { char c = tcpClient.read(); data += c; }].
    It returns the final [data]. *)
Equations? drain (data : WString) (n : N)
  : WString * N * list Event by wf (bytes_buffered n) lt :=
  drain data n with inspect (tcp_available n =? 0) := {
    | exist _ false _ =>
        let rd := tcpClient_read n in
        let rest := drain (data ++ [fst (fst rd)]) (snd (fst rd)) in
        (fst (fst rest), snd (fst rest), EvTcpAvailable :: snd rd ++ snd rest)
    | exist _ true _ => (data, n, [EvTcpAvailable]) }.
Proof.
  unfold bytes_buffered. cbn.
  apply Z.eqb_neq in e.
  pose proof (tcp_read_consumes n e).
  pose proof (tcp_available_nonneg n).
  lia.
Qed.

(** The inbound-data poll of [loop]:
    [if (tcpClient.connected() && tcpClient.available()) { ... }]. *)
Definition poll : M unit :=
  up <- tcpClient_connected ;;
  if up then
    avail <- tcpClient_available ;;
    if negb (avail =? 0) then
      data <- drain [] ;;
      Serial_print (lit "TCPDATA:") ;;
      Serial_println data
    else ret tt
  else ret tt.

Definition processCommand (cmd : WString) : M unit :=
  let cmd := WStr.trim cmd in
  if WStr.startsWith cmd (lit "CONNECT:") then
    let firstColon := WStr.indexOf cmd ":" 8 in
    if 0 <? firstColon then
      let ssid := WStr.substring cmd 8 firstColon in
      let password := WStr.substring_from cmd (firstColon + 1) in
      connectToWiFi ssid password
    else
      Serial_println (lit "ERROR:Invalid CONNECT format. Use CONNECT:SSID:PASSWORD")
  else if WStr.equals cmd (lit "STATUS") then
    getStatus
  else if WStr.equals cmd (lit "SCAN") then
    scanNetworks
  else if WStr.equals cmd (lit "DISCONNECT") then
    WiFi_disconnect ;;
    Serial_println (lit "OK:Disconnected")
  else if WStr.startsWith cmd (lit "TCPCONNECT:") then
    let colonPos := WStr.lastIndexOf cmd ":" in
    if 11 <? colonPos then
      let host := WStr.substring cmd 11 colonPos in
      let port := WStr.toInt (WStr.substring_from cmd (colonPos + 1)) in
      connectTCP host port
    else
      Serial_println (lit "ERROR:Invalid TCPCONNECT format")
  else if WStr.startsWith cmd (lit "TCPSEND:") then
    let data := WStr.substring_from cmd 8 in
    sendTCP data
  else if WStr.equals cmd (lit "TCPCLOSE") then
    up <- tcpClient_connected ;;
    if up then
      tcpClient_stop ;;
      Serial_println (lit "OK:TCP connection closed")
    else
      Serial_println (lit "ERROR:No active TCP connection")
  else if WStr.equals cmd (lit "IP") then
    st <- WiFi_status ;;
    if st =? WL_CONNECTED then
      Serial_print (lit "IP:") ;;
      ip <- WiFi_localIP ;;
      Serial_println ip
    else
      Serial_println (lit "ERROR:Not connected to WiFi")
  else
    Serial_print (lit "ERROR:Unknown command: ") ;;
    Serial_println cmd.

(** The state [loop] works on: the provider and the global
    [serialBuffer], which no handler reads or writes. *)
Record World : Type := mkWorld { net : N; serialBuffer : WString }.

(** One iteration of the serial read loop of [loop] on the byte [c]. *)
Definition read_byte (c : ascii) (w : World) : World * list Event :=
  match accumulate c (serialBuffer w) with
  | (Some line, buf) =>
      let '(_, n1, e) := processCommand line (net w) in
      (mkWorld n1 buf, e)
  | (None, buf) => (mkWorld (net w) buf, [])
  end.

(** [while (Serial.available()) { char c = Serial.read(); ... }] over the
    bytes [rx] that the serial port holds. *)
Fixpoint read_loop (rx : list ascii) (w : World) : World * list Event :=
  match rx with
  | [] => (w, [])
  | c :: rest =>
      let (w1, e1) := read_byte c w in
      let (w2, e2) := read_loop rest w1 in
      (w2, e1 ++ e2)
  end.

(** One scheduling tick, with [rx] the bytes waiting on the serial port. *)
Definition loop (rx : list ascii) (w : World) : World * list Event :=
  let (w1, e1) := read_loop rx w in
  let '(_, n2, e2) := (poll ;; delay 10) (net w1) in
  (mkWorld n2 (serialBuffer w1), e1 ++ e2).

(** The commands of [lines] dispatched one after the other. *)
Fixpoint dispatch_all (lines : list WString) : M unit :=
  match lines with
  | [] => ret tt
  | l :: rest => processCommand l ;; dispatch_all rest
  end.

End Firmware.

(* ================================================================== *)
(** ** A small simulated provider *)
(* ================================================================== *)

(** A network in which association completes after [sim_join] further
    half-second sleeps, the socket holds the bytes [sim_rx], and a scan
    finds the access points [sim_aps] (name, signal, cipher). *)
Record SimNet : Type := mkSim {
  sim_status : Z;
  sim_join : option nat;
  sim_up : bool;
  sim_rx : list ascii;
  sim_aps : list (WString * Z * Z)
}.

Definition sim_elapse (ms : Z) (n : SimNet) : SimNet :=
  match sim_join n with
  | Some O => mkSim 3 None (sim_up n) (sim_rx n) (sim_aps n)
  | Some (S k) => mkSim (sim_status n) (Some k) (sim_up n) (sim_rx n) (sim_aps n)
  | None => n
  end.

Definition sim_read (n : SimNet) : ascii * SimNet :=
  match sim_rx n with
  | [] => ("000"%char, n)
  | c :: r => (c, mkSim (sim_status n) (sim_join n) (sim_up n) r (sim_aps n))
  end.

Definition sim_ap (n : SimNet) (i : Z) : WString * Z * Z :=
  nth (Z.to_nat i) (sim_aps n) ([], 0, 0).

#[export, refine] Instance SimProvider : NetworkProvider SimNet := {
  WL_CONNECTED := 3;
  WIFI_AUTH_OPEN := 0;
  wifi_begin := fun _ _ n =>
    mkSim 6 (Some 2%nat) (sim_up n) (sim_rx n) (sim_aps n);
  wifi_status := sim_status;
  wifi_disconnect := fun n => mkSim 6 None (sim_up n) (sim_rx n) (sim_aps n);
  wifi_localIP := fun _ => lit "192.168.4.2";
  wifi_SSID := fun _ => lit "home";
  wifi_RSSI := fun _ => -52;
  wifi_scanNetworks := fun n => (Z.of_nat (List.length (sim_aps n)), n);
  wifi_SSID_at := fun n i => fst (fst (sim_ap n i));
  wifi_RSSI_at := fun n i => snd (fst (sim_ap n i));
  wifi_encryptionType := fun n i => snd (sim_ap n i);
  tcp_connected := sim_up;
  tcp_available := fun n => Z.of_nat (List.length (sim_rx n));
  tcp_read := sim_read;
  tcp_connect := fun _ _ n =>
    (true, mkSim (sim_status n) (sim_join n) true [] (sim_aps n));
  tcp_print := fun _ n => n;
  tcp_stop := fun n => mkSim (sim_status n) (sim_join n) false [] (sim_aps n);
  elapse := sim_elapse
}.
Proof.
  - intros n. lia.
  - intros [st j up rx aps] H. unfold sim_read.
    destruct rx as [|c r]; [now elim H |].
    cbn [sim_rx snd List.length]. rewrite Nat2Z.inj_succ. lia.
Defined.

(** A provider state: not associated, no socket, nothing buffered. *)
Definition sim_idle : SimNet := mkSim 6 None false [] [].

(** A provider whose radio is off: it never associates, a scan fails
    with the code [-2], and there is no socket. *)
#[export, refine] Instance OffProvider : NetworkProvider unit := {
  WL_CONNECTED := 3;
  WIFI_AUTH_OPEN := 0;
  wifi_begin := fun _ _ n => n;
  wifi_status := fun _ => 6;
  wifi_disconnect := fun n => n;
  wifi_localIP := fun _ => lit "0.0.0.0";
  wifi_SSID := fun _ => [];
  wifi_RSSI := fun _ => 0;
  wifi_scanNetworks := fun n => (-2, n);
  wifi_SSID_at := fun _ _ => [];
  wifi_RSSI_at := fun _ _ => 0;
  wifi_encryptionType := fun _ _ => 0;
  tcp_connected := fun _ => false;
  tcp_available := fun _ => 0;
  tcp_read := fun n => ("000"%char, n);
  tcp_connect := fun _ _ n => (false, n);
  tcp_print := fun _ n => n;
  tcp_stop := fun n => n;
  elapse := fun _ n => n
}.
Proof.
  - intros n. lia.
  - intros n H. now elim H.
Defined.

(* ================================================================== *)
(** ** Vocabulary of the statements *)
(* ================================================================== *)

(** [ch] does not occur in [s]. *)
Definition lacks (ch : ascii) (s : WString) : bool :=
  forallb (fun c => negb (Ascii.eqb c ch)) s.

(** [s] holds no NUL byte. *)
Definition nul_free (s : WString) : bool := lacks "000" s.

(** Trailing white space removed. *)
Definition rtrim (s : WString) : WString := rev (WStr.drop_space (rev s)).

(** One round of the polling loop of [connectToWiFi]: the status is
    polled, the firmware sleeps half a second and prints a dot. *)
Definition poll_round : list Event :=
  [EvWiFiStatus; EvDelay 500; EvSerialPrint (lit ".")].

Fixpoint poll_rounds (k : nat) : list Event :=
  match k with
  | O => []
  | S k' => poll_round ++ poll_rounds k'
  end.

(** The progress dots of [k] rounds. *)
Fixpoint dots (k : nat) : WString :=
  match k with
  | O => []
  | S k' => lit "." ++ dots k'
  end.

Section ProviderVocabulary.

Context {N : Type} {NP : NetworkProvider N}.

(** The wire word for a cipher code. *)
Definition security_label (enc : Z) : WString :=
  if enc =? WIFI_AUTH_OPEN then lit "OPEN" else lit "SECURED".

(** The line that reports the scan result of index [i]. *)
Definition network_line (n : N) (i : Z) : WString :=
  lit "NETWORK:" ++ wifi_SSID_at n i ++ lit ":" ++
  print_int (wifi_RSSI_at n i) ++ lit ":" ++
  security_label (wifi_encryptionType n i).

(** The calls made to report the scan result of index [i]. *)
Definition network_events (n : N) (i : Z) : list Event :=
  [EvSerialPrint (lit "NETWORK:"); EvWiFiSSIDAt i;
   EvSerialPrint (wifi_SSID_at n i); EvSerialPrint (lit ":");
   EvWiFiRSSIAt i; EvSerialPrint (print_int (wifi_RSSI_at n i));
   EvSerialPrint (lit ":"); EvWiFiEncryptionAt i;
   EvSerialPrintln (security_label (wifi_encryptionType n i))].

(** The indices [from, from+1, ...] of [count] scan results. *)
Fixpoint indices (count : nat) (from : Z) : list Z :=
  match count with
  | O => []
  | S k => from :: indices k (from + 1)
  end.

(** [k] bytes read from the socket one after the other. *)
Fixpoint read_n (k : nat) (n : N) : WString * N :=
  match k with
  | O => ([], n)
  | S k' =>
      let (c, n1) := tcp_read n in
      let (cs, n2) := read_n k' n1 in
      (c :: cs, n2)
  end.

(** The calls of a drain loop that reads [k] bytes. *)
Fixpoint drain_events (k : nat) : list Event :=
  match k with
  | O => [EvTcpAvailable]
  | S k' => EvTcpAvailable :: EvTcpRead :: drain_events k'
  end.

End ProviderVocabulary.

(** [s] is made of decimal digits only. *)
Definition all_digits (s : WString) : bool :=
  forallb (fun c => match WStr.digit c with Some _ => true | None => false end) s.

(** The number a sequence of decimal digits denotes. *)
Definition decimal_value (s : WString) : Z :=
  fold_left (fun acc c => 10 * acc + (Z.of_nat (nat_of_ascii c) - 48)) s 0.

Definition is_digit (s : WString) : bool :=
  match s with
  | [] => false
  | c :: _ => match WStr.digit c with Some _ => true | None => false end
  end.

(** After white space and an optional sign, [s] goes on with a digit. *)
Definition starts_number (s : WString) : bool :=
  match WStr.drop_space s with
  | [] => false
  | c :: r =>
      if Ascii.eqb c "-" || Ascii.eqb c "+" then is_digit r
      else is_digit (c :: r)
  end.

(** [s] is made of white space only. *)
Definition blank (s : WString) : bool := forallb WStr.isspace s.

(** [s] begins with the first letter of one of the verbs. *)
Definition starts_like_verb (s : WString) : bool :=
  match s with
  | [] => false
  | c :: _ =>
      Ascii.eqb c "C" || Ascii.eqb c "S" || Ascii.eqb c "D"
      || Ascii.eqb c "T" || Ascii.eqb c "I"
  end.

(** The verbs that [processCommand] compares with [==]. *)
Definition exact_verbs : list WString :=
  [lit "STATUS"; lit "SCAN"; lit "DISCONNECT"; lit "TCPCLOSE"; lit "IP"].

(** The last call of the trace is a [Serial.println]. *)
Fixpoint ends_println (t : list Event) : bool :=
  match t with
  | [] => false
  | e :: t' =>
      match t' with
      | [] => match e with EvSerialPrintln _ => true | _ => false end
      | _ :: _ => ends_println t'
      end
  end.

Definition is_tcp_stop (e : Event) : bool :=
  match e with EvTcpStop => true | _ => false end.

Section WaitVocabulary.

Context {N : Type} {NP : NetworkProvider N}.

(** The provider after [k] sleeps of half a second. *)
Fixpoint after_sleeps (k : nat) (n : N) : N :=
  match k with
  | O => n
  | S k' => after_sleeps k' (elapse 500 n)
  end.

(** The status is not [WL_CONNECTED] at any of the first [k] polls. *)
Definition not_connected_before (k : nat) (n : N) : bool :=
  forallb (fun j => negb (wifi_status (after_sleeps j n) =? WL_CONNECTED))
          (seq 0 k).

End WaitVocabulary.

(* ================================================================== *)
(** ** Facts about the string operations *)
(* ================================================================== *)

Lemma length_app_Z (a b : WString) :
  WStr.length (a ++ b) = WStr.length a + WStr.length b.
Proof. unfold WStr.length. rewrite length_app. lia. Qed.

Lemma length_nonneg (a : WString) : 0 <= WStr.length a.
Proof. unfold WStr.length. lia. Qed.

Lemma length_pos_iff (a : WString) : (0 <? WStr.length a) = non_empty a.
Proof. destruct a; reflexivity. Qed.

Lemma startsWith_app (p s : WString) : WStr.startsWith (p ++ s) p = true.
Proof.
  induction p as [|c p IH]; simpl; [reflexivity |].
  now rewrite Ascii.eqb_refl, IH.
Qed.

Lemma is_nul_eqb (x ch : ascii) :
  WStr.is_nul x = true -> WStr.is_nul ch = false -> Ascii.eqb x ch = false.
Proof.
  unfold WStr.is_nul. intros Hx Hch. apply Ascii.eqb_eq in Hx. subst x.
  now rewrite Ascii.eqb_sym.
Qed.

Lemma c_str_nul_free (s : WString) : nul_free s = true -> WStr.c_str s = s.
Proof.
  induction s as [|c s IH]; intros H; [reflexivity |].
  cbn [nul_free lacks forallb] in H. apply andb_true_iff in H.
  destruct H as [Hc Hs]. apply negb_true_iff in Hc.
  cbn [WStr.c_str]. unfold WStr.is_nul. rewrite Hc. f_equal. now apply IH.
Qed.

Lemma lacks_c_str (ch : ascii) (s : WString) :
  lacks ch s = true -> lacks ch (WStr.c_str s) = true.
Proof.
  induction s as [|c s IH]; intros H; [reflexivity |].
  cbn [lacks forallb] in H. apply andb_true_iff in H. destruct H as [Hc Hs].
  cbn [WStr.c_str]. destruct (WStr.is_nul c); [reflexivity |].
  cbn [lacks forallb]. rewrite Hc. now apply IH.
Qed.

Lemma nul_free_app (a b : WString) :
  nul_free (a ++ b) = nul_free a && nul_free b.
Proof. unfold nul_free, lacks. apply forallb_app. Qed.

Lemma scan_first_absent ch s base :
  WStr.is_nul ch = false ->
  lacks ch (WStr.c_str s) = true -> WStr.scan_first ch s base = -1.
Proof.
  intros Hch. revert base.
  induction s as [|c s IH]; intros base H; cbn [WStr.scan_first].
  - now rewrite Hch.
  - cbn [WStr.c_str] in H. destruct (WStr.is_nul c) eqn:Hn.
    + now rewrite (is_nul_eqb c ch Hn Hch).
    + cbn [lacks forallb] in H. apply andb_true_iff in H.
      destruct H as [Hc Hs]. apply negb_true_iff in Hc. rewrite Hc.
      now apply IH.
Qed.

Lemma scan_first_found ch a b base :
  lacks ch a = true -> nul_free a = true ->
  WStr.scan_first ch (a ++ ch :: b) base = base + WStr.length a.
Proof.
  revert base. induction a as [|c a IH]; intros base H Hn;
    cbn [app WStr.scan_first].
  - rewrite Ascii.eqb_refl. unfold WStr.length. simpl. lia.
  - cbn [lacks nul_free forallb] in H, Hn.
    apply andb_true_iff in H. destruct H as [Hc Hs].
    apply andb_true_iff in Hn. destruct Hn as [Hn Hns].
    apply negb_true_iff in Hc. apply negb_true_iff in Hn.
    unfold WStr.is_nul. rewrite Hc, Hn.
    rewrite IH by assumption. unfold WStr.length. simpl List.length. lia.
Qed.

Lemma scan_last_absent ch s base found :
  WStr.is_nul ch = false ->
  lacks ch (WStr.c_str s) = true -> WStr.scan_last ch s base found = found.
Proof.
  intros Hch. revert base found.
  induction s as [|c s IH]; intros base found H; cbn [WStr.scan_last].
  - now rewrite Hch.
  - cbn [WStr.c_str] in H. destruct (WStr.is_nul c) eqn:Hn.
    + now rewrite Hch.
    + cbn [lacks forallb] in H. apply andb_true_iff in H.
      destruct H as [Hc Hs]. apply negb_true_iff in Hc. rewrite Hc.
      now apply IH.
Qed.

Lemma scan_last_app ch a b base found :
  WStr.is_nul ch = false -> nul_free a = true ->
  WStr.scan_last ch (a ++ b) base found =
  WStr.scan_last ch b (base + WStr.length a) (WStr.scan_last ch a base found).
Proof.
  intros Hch. revert base found.
  induction a as [|c a IH]; intros base found Hn; cbn [app WStr.scan_last].
  - rewrite Hch. unfold WStr.length. simpl. now rewrite Z.add_0_r.
  - cbn [nul_free lacks forallb] in Hn. apply andb_true_iff in Hn.
    destruct Hn as [Hn Hns]. apply negb_true_iff in Hn.
    unfold WStr.is_nul at 1 3. rewrite Hn.
    rewrite IH by assumption. f_equal.
    unfold WStr.length. simpl List.length. lia.
Qed.

Lemma lastIndexOf_split ch a b :
  WStr.is_nul ch = false -> nul_free a = true ->
  lacks ch (WStr.c_str b) = true ->
  WStr.lastIndexOf (a ++ ch :: b) ch = WStr.length a.
Proof.
  intros Hch Hn H. unfold WStr.lastIndexOf.
  assert (Hlen : (WStr.length (a ++ ch :: b) <=? 0) = false).
  { apply Z.leb_gt. unfold WStr.length. rewrite length_app.
    simpl List.length. lia. }
  rewrite Hlen, scan_last_app by assumption.
  cbn [WStr.scan_last]. rewrite Hch, Ascii.eqb_refl.
  now rewrite scan_last_absent.
Qed.

Lemma substring_middle (a b c : WString) :
  b <> [] \/ c <> [] ->
  WStr.substring (a ++ b ++ c) (WStr.length a) (WStr.length a + WStr.length b) = b.
Proof.
  intros Hne. unfold WStr.substring.
  pose proof (length_nonneg a). pose proof (length_nonneg b).
  pose proof (length_nonneg c).
  assert (0 < WStr.length b + WStr.length c).
  { destruct Hne as [Hb | Hc]; [destruct b | destruct c]; try congruence;
      unfold WStr.length in *; simpl List.length in *; lia. }
  destruct (WStr.length a + WStr.length b <? WStr.length a) eqn:E1;
    [apply Z.ltb_lt in E1; lia |].
  rewrite !length_app_Z.
  destruct (WStr.length a + (WStr.length b + WStr.length c) <=? WStr.length a) eqn:E2;
    [apply Z.leb_le in E2; lia |].
  destruct (WStr.length a + (WStr.length b + WStr.length c) <? WStr.length a + WStr.length b) eqn:E3;
    [apply Z.ltb_lt in E3; lia |].
  unfold WStr.length. rewrite Nat2Z.id.
  rewrite skipn_app, skipn_all, Nat.sub_diag. simpl.
  replace (Z.to_nat _) with (List.length b) by lia.
  rewrite firstn_app, firstn_all, Nat.sub_diag. simpl. apply app_nil_r.
Qed.

Lemma substring_from_suffix (a b : WString) :
  WStr.substring_from (a ++ b) (WStr.length a) = b.
Proof.
  unfold WStr.substring_from, WStr.substring.
  pose proof (length_nonneg a). pose proof (length_nonneg b).
  rewrite !length_app_Z.
  destruct (WStr.length a + WStr.length b <? WStr.length a) eqn:E1;
    [apply Z.ltb_lt in E1; lia |].
  destruct (WStr.length a + WStr.length b <=? WStr.length a) eqn:E2.
  - apply Z.leb_le in E2. destruct b; [reflexivity |].
    unfold WStr.length in E2. simpl List.length in E2. lia.
  - rewrite Z.ltb_irrefl.
    unfold WStr.length. rewrite Nat2Z.id.
    rewrite skipn_app, skipn_all, Nat.sub_diag. simpl.
    replace (Z.to_nat _) with (List.length b) by lia.
    apply firstn_all.
Qed.

Lemma drop_space_app a b :
  WStr.drop_space (a ++ b) =
  match WStr.drop_space a with
  | [] => WStr.drop_space b
  | _ :: _ => WStr.drop_space a ++ b
  end.
Proof.
  induction a as [|c a IH]; simpl; [reflexivity |].
  destruct (WStr.isspace c); [exact IH | reflexivity].
Qed.

(** A line that starts with the non-blank [c] and whose prefix [c :: p]
    ends with a non-blank byte is only trimmed after that prefix. *)
Lemma trim_after_prefix (c : ascii) (p s : WString) :
  WStr.isspace c = false ->
  WStr.isspace (last p c) = false ->
  WStr.trim ((c :: p) ++ s) = (c :: p) ++ rtrim s.
Proof.
  intros Hc Hl. unfold WStr.trim, rtrim.
  change ((c :: p) ++ s) with (c :: (p ++ s)).
  simpl WStr.drop_space. rewrite Hc.
  change (c :: p ++ s) with ((c :: p) ++ s).
  rewrite rev_app_distr, drop_space_app.
  assert (Hd : WStr.drop_space (rev (c :: p)) = rev (c :: p)).
  { destruct (rev (c :: p)) as [|x r] eqn:E.
    - reflexivity.
    - assert (Hx : x = last (c :: p) c).
      { rewrite <- (rev_involutive (c :: p)), E. simpl rev.
        now rewrite last_last. }
      assert (Hx' : last (c :: p) c = last p c) by (destruct p; reflexivity).
      simpl. rewrite Hx, Hx', Hl. reflexivity. }
  destruct (WStr.drop_space (rev s)) as [|y r] eqn:E.
  - rewrite Hd, rev_involutive. simpl. now rewrite app_nil_r.
  - rewrite rev_app_distr, rev_involutive. reflexivity.
Qed.

(** A line with a non-blank first and last byte is its own trim. *)
Lemma trim_closed (c : ascii) (p : WString) :
  WStr.isspace c = false ->
  WStr.isspace (last p c) = false ->
  WStr.trim (c :: p) = c :: p.
Proof.
  intros Hc Hl. rewrite <- (app_nil_r (c :: p)) at 1.
  rewrite trim_after_prefix by assumption.
  unfold rtrim. simpl. now rewrite app_nil_r.
Qed.

(** *** [toInt] reads back what [print] writes *)

(** Evaluates [WStr.digit] on the digit character at the head. *)
Ltac read_digit :=
  match goal with
  | |- context [WStr.digit ?c] =>
      let v := eval vm_compute in (WStr.digit c) in
      change (WStr.digit c) with v; cbv iota
  end.

Lemma digits_of_uint_acc (d : Decimal.uint) : forall acc : positive,
  WStr.digits (list_ascii_of_string (NilEmpty.string_of_uint d)) (Z.pos acc)
    = Z.pos (Pos.of_uint_acc d acc).
Proof.
  induction d; intros acc; cbn [NilEmpty.string_of_uint list_ascii_of_string
    WStr.digits Pos.of_uint_acc]; try reflexivity;
    read_digit; rewrite <- IHd; f_equal; lia.
Qed.

Lemma digits_of_uint (d : Decimal.uint) :
  WStr.digits (list_ascii_of_string (NilEmpty.string_of_uint d)) 0
    = Z.of_N (Pos.of_uint d).
Proof.
  induction d; cbn [NilEmpty.string_of_uint list_ascii_of_string WStr.digits
    Pos.of_uint]; try reflexivity;
    read_digit; try exact IHd;
    cbn [Z.mul Z.add Z.of_N]; apply digits_of_uint_acc.
Qed.

Lemma digits_print_uint (d : Decimal.uint) :
  WStr.digits (list_ascii_of_string (NilZero.string_of_uint d)) 0
    = Z.of_N (Pos.of_uint d).
Proof.
  destruct d; try apply digits_of_uint. reflexivity.
Qed.

(** The text of an unsigned number starts with a digit. *)
Lemma print_uint_head (d : Decimal.uint) :
  exists c r,
    list_ascii_of_string (NilZero.string_of_uint d) = c :: r
    /\ WStr.isspace c = false
    /\ Ascii.eqb c "-" = false /\ Ascii.eqb c "+" = false.
Proof.
  destruct d; cbn [NilZero.string_of_uint NilEmpty.string_of_uint list_ascii_of_string];
    eexists; eexists; (split; [reflexivity | repeat split]).
Qed.

Lemma toInt_print_int (n : Z) :
  WStr.LONG_MIN <= n <= WStr.LONG_MAX ->
  WStr.toInt (print_int n) = n.
Proof.
  intros Hn. unfold WStr.toInt, print_int.
  pose proof (DecimalZ.of_to n) as Hz. unfold Z.of_int in Hz.
  destruct (Z.to_int n) as [d | d]; cbn [NilZero.string_of_int].
  - destruct (print_uint_head d) as (c & r & Hs & Hsp & Hm & Hp).
    pose proof (digits_print_uint d) as Hd. rewrite Hs in *.
    cbn [WStr.drop_space]. rewrite Hsp, Hm, Hp, Hd.
    unfold Z.of_uint in Hz. rewrite Hz. lia.
  - cbn [list_ascii_of_string WStr.drop_space].
    change (WStr.isspace "-") with false. cbv iota.
    rewrite Ascii.eqb_refl.
    destruct d; cbn [NilZero.string_of_uint] in *;
      try (rewrite digits_of_uint; unfold Z.of_uint in Hz; rewrite Hz; lia).
    cbn in Hz. subst n. reflexivity.
Qed.

(* ================================================================== *)
(** ** Line accumulator *)
(* ================================================================== *)

Lemma split_on_nonnil sep s : split_on sep s <> [].
Proof.
  destruct s as [|c r]; simpl; [discriminate |].
  destruct (sep c); [discriminate |].
  destruct (split_on sep r); discriminate.
Qed.

Lemma split_on_app_clean sep a s :
  forallb (fun c => negb (sep c)) a = true ->
  split_on sep (a ++ s) =
  match split_on sep s with
  | [] => [a]
  | p :: ps => (a ++ p) :: ps
  end.
Proof.
  induction a as [|c a IH]; intros H; simpl in *.
  - destruct (split_on sep s) eqn:E; [| reflexivity].
    now apply split_on_nonnil in E.
  - apply andb_true_iff in H. destruct H as [Hc Ha].
    destruct (sep c); [discriminate |].
    rewrite IH by assumption.
    destruct (split_on sep s); reflexivity.
Qed.

Lemma feed_all_splits input : forall buf,
  forallb (fun c => negb (is_terminator c)) buf = true ->
  nonempty_splits (buf ++ input) =
    fst (feed_all input buf) ++ pending (snd (feed_all input buf))
  /\ forallb (fun c => negb (is_terminator c)) (snd (feed_all input buf)) = true.
Proof.
  induction input as [|c rest IH]; intros buf Hbuf.
  - simpl. rewrite app_nil_r. split; [| assumption].
    unfold nonempty_splits, pending.
    rewrite <- (app_nil_r buf) at 1.
    rewrite split_on_app_clean by assumption. simpl.
    destruct (non_empty buf) eqn:E; rewrite app_nil_r; rewrite E; reflexivity.
  - simpl feed_all. unfold accumulate.
    destruct (is_terminator c) eqn:Hc.
    + rewrite length_pos_iff.
      assert (Hsplit : nonempty_splits (buf ++ c :: rest) =
                       pending buf ++ nonempty_splits rest).
      { unfold nonempty_splits, pending.
        rewrite split_on_app_clean by assumption.
        simpl split_on. rewrite Hc. rewrite app_nil_r. simpl.
        destruct (non_empty buf); reflexivity. }
      destruct (non_empty buf) eqn:E.
      * destruct (IH [] eq_refl) as [IH1 IH2]. simpl app in IH1.
        destruct (feed_all rest []) as [lines final]. simpl in *.
        split; [| assumption].
        rewrite Hsplit, IH1. unfold pending at 1. rewrite E. reflexivity.
      * assert (buf = []) by (destruct buf; [reflexivity | discriminate]).
        subst buf.
        destruct (IH [] eq_refl) as [IH1 IH2]. simpl app in IH1.
        destruct (feed_all rest []) as [lines final]. simpl in *.
        split; [| assumption].
        rewrite Hsplit, IH1. reflexivity.
    + assert (Hb : forallb (fun c => negb (is_terminator c)) (buf ++ [c]) = true).
      { rewrite forallb_app, Hbuf. simpl. now rewrite Hc. }
      destruct (IH (buf ++ [c]) Hb) as [IH1 IH2].
      rewrite <- app_assoc in IH1. simpl app in IH1.
      destruct (feed_all rest (buf ++ [c])) as [lines final]. simpl in *.
      split; assumption.
Qed.

Lemma feed_all_clean input : forall buf,
  forallb (fun c => negb (is_terminator c)) input = true ->
  feed_all input buf = ([], buf ++ input).
Proof.
  induction input as [|c rest IH]; intros buf H; simpl in *.
  - now rewrite app_nil_r.
  - apply andb_true_iff in H. destruct H as [Hc Hr].
    unfold accumulate. destruct (is_terminator c); [discriminate |].
    rewrite IH by assumption. now rewrite <- app_assoc.
Qed.

(* ================================================================== *)
(** ** The handlers *)
(* ================================================================== *)

Section Handlers.

Context {N : Type} {NP : NetworkProvider N}.

Lemma render_app t1 t2 cur :
  render (t1 ++ t2) cur =
    (fst (render t1 cur) ++ fst (render t2 (snd (render t1 cur))),
     snd (render t2 (snd (render t1 cur)))).
Proof.
  revert cur. induction t1 as [|e t1 IH]; intros cur; simpl.
  - now destruct (render t2 cur).
  - destruct e; try apply IH.
    rewrite (IH []). destruct (render t1 []) as [ls c]. simpl.
    reflexivity.
Qed.

Lemma slept_app t1 t2 : slept (t1 ++ t2) = slept t1 + slept t2.
Proof.
  induction t1 as [|e t1 IH]; simpl; [reflexivity |].
  destruct e; try exact IH. rewrite IH. lia.
Qed.

(** *** connectToWiFi *)

Lemma wait_connected_step attempts (nw : N) :
  wait_connected attempts nw =
    if negb (wifi_status nw =? WL_CONNECTED) && (attempts <? 20) then
      let rest := wait_connected (attempts + 1)
                    (elapse 500 nw) in
      (fst (fst rest), snd (fst rest),
       EvWiFiStatus :: EvDelay 500 :: EvSerialPrint (lit ".") :: snd rest)
    else (attempts, nw, [EvWiFiStatus]).
Proof.
  etransitivity; [apply wait_connected_equation_1 |].
  unfold wait_connected_unfold_clause_1, inspect.
  destruct (negb (wifi_status nw =? WL_CONNECTED) && (attempts <? 20));
    reflexivity.
Qed.


Lemma render_poll_rounds k cur :
  render (poll_rounds k) cur = ([], cur ++ dots k).
Proof.
  revert cur. induction k as [|k IH]; intros cur; simpl.
  - now rewrite app_nil_r.
  - rewrite IH. now rewrite <- app_assoc.
Qed.

Lemma slept_poll_rounds k : slept (poll_rounds k) = 500 * Z.of_nat k.
Proof.
  induction k as [|k IH]; [reflexivity |].
  change (slept (poll_rounds (S k))) with (500 + slept (poll_rounds k)).
  rewrite IH. lia.
Qed.




(** *** scanNetworks *)

Lemma print_network_run (i : Z) (nw : N) :
  print_network i nw = (tt, nw, network_events nw i).
Proof. reflexivity. Qed.

Lemma print_networks_run (count : nat) : forall (from : Z) (nw : N),
  print_networks count from nw =
    (tt, nw, flat_map (network_events nw) (indices count from)).
Proof.
  induction count as [|k IH]; intros from nw; [reflexivity |].
  cbn [print_networks indices flat_map]. unfold bind.
  rewrite print_network_run, IH. reflexivity.
Qed.

Lemma render_network_events (n : N) (i : Z) :
  render (network_events n i) [] = ([network_line n i], []).
Proof.
  unfold network_events, network_line. cbn [render app].
  rewrite <- !app_assoc. reflexivity.
Qed.

Lemma render_networks (n : N) (l : list Z) :
  render (flat_map (network_events n) l) [] = (map (network_line n) l, []).
Proof.
  induction l as [|i l IH]; [reflexivity |].
  cbn [flat_map map]. rewrite render_app, render_network_events.
  cbn [fst snd]. rewrite IH. reflexivity.
Qed.

(** C6. A scan first prints [SCANNING...] and only then asks the provider;
    for a count of zero it prints one more line, [SCAN:No networks found];
    otherwise [SCAN:Found N networks] and then one [NETWORK:] line for
    each index [0 .. N-1], in that order.  The last field of such a
    line is [OPEN] exactly for the open cipher code and [SECURED] for
    every other code. *)
Theorem C6_scan_report (nw : N) :
  let n := fst (wifi_scanNetworks nw) in
  let net' := snd (wifi_scanNetworks nw) in
  (exists rest,
     snd (scanNetworks nw) =
       EvSerialPrintln (lit "SCANNING...") :: EvWiFiScan :: rest)
  /\ serial_lines (snd (scanNetworks nw)) =
       lit "SCANNING..." ::
       (if n =? 0 then [lit "SCAN:No networks found"]
        else (lit "SCAN:Found " ++ print_int n ++ lit " networks")
             :: map (network_line net') (indices (Z.to_nat n) 0))
  /\ (forall enc,
        (enc = WIFI_AUTH_OPEN /\ security_label enc = lit "OPEN")
        \/ (enc <> WIFI_AUTH_OPEN /\ security_label enc = lit "SECURED")).
Proof.
  intros n net'. unfold scanNetworks, bind, Serial_println, Serial_print,
    WiFi_scanNetworks, call.
  fold n. fold net'. cbn [fst snd].
  destruct (n =? 0) eqn:Hn.
  - split; [eexists; reflexivity | split; [reflexivity |]].
    intros enc. unfold security_label.
    destruct (enc =? WIFI_AUTH_OPEN) eqn:E;
      [left; apply Z.eqb_eq in E | right; apply Z.eqb_neq in E]; auto.
  - rewrite print_networks_run. cbn [fst snd app].
    split; [eexists; reflexivity | split].
    + unfold serial_lines. cbn [render app].
      rewrite render_networks. cbn [fst].
      rewrite <- !app_assoc. reflexivity.
    + intros enc. unfold security_label.
      destruct (enc =? WIFI_AUTH_OPEN) eqn:E;
        [left; apply Z.eqb_eq in E | right; apply Z.eqb_neq in E]; auto.
Qed.

(** *** The inbound-data poll *)

Lemma drain_step data (nw : N) :
  drain data nw =
    if tcp_available nw =? 0 then (data, nw, [EvTcpAvailable])
    else
      let rest := drain (data ++ [fst (tcp_read nw)])
                    (snd (tcp_read nw)) in
      (fst (fst rest), snd (fst rest),
       EvTcpAvailable :: EvTcpRead :: snd rest).
Proof.
  etransitivity; [apply drain_equation_1 |].
  unfold drain_unfold_clause_1, inspect.
  destruct (tcp_available nw =? 0); reflexivity.
Qed.

Lemma drain_reads_all (m : nat) : forall data (nw : N),
  Z.to_nat (tcp_available nw) = m ->
  drain data nw =
    (data ++ fst (read_n m nw),
     snd (read_n m nw),
     drain_events m)
  /\ tcp_available (snd (read_n m nw)) = 0
  /\ List.length (fst (read_n m nw)) = m.
Proof.
  induction m as [|m IH]; intros data nw Hm; rewrite drain_step;
    pose proof (tcp_available_nonneg nw) as Hnn.
  - assert (H0 : tcp_available nw = 0) by lia.
    rewrite H0. cbn [Z.eqb read_n fst snd drain_events List.length].
    rewrite app_nil_r. auto.
  - assert (Hne : tcp_available nw <> 0) by lia.
    apply Z.eqb_neq in Hne. rewrite Hne. apply Z.eqb_neq in Hne.
    pose proof (tcp_read_consumes nw Hne) as Hread.
    cbn [read_n drain_events].
    destruct (tcp_read nw) as [c n1] eqn:Hrd. cbn [fst snd] in *.
    destruct (IH (data ++ [c]) n1)
      as (Hd & Hz & Hl); [lia |].
    destruct (read_n m n1) as [cs n2] eqn:Hrn. cbn [fst snd] in *.
    cbv zeta. rewrite Hd. cbn [fst snd List.length].
    rewrite <- app_assoc. cbn [app]. auto.
Qed.

Lemma render_drain_events k cur : render (drain_events k) cur = ([], cur).
Proof. induction k as [|k IH]; [reflexivity | exact IH]. Qed.

(** A tick runs the read loop, then the poll once, then sleeps 10 ms. *)
Lemma loop_trace (rx : list ascii) (w : @World N) :
  snd (loop rx w) =
    snd (read_loop rx w)
    ++ snd (poll (net (fst (read_loop rx w))))
    ++ [EvDelay 10].
Proof.
  unfold loop, bind, delay, command.
  destruct (read_loop rx w) as [w1 e1]. cbn [fst snd].
  destruct (poll (net w1)) as [[u n2] e2]. reflexivity.
Qed.

(** C7. A tick runs the inbound-data poll once, after the commands.
    Without an established session the poll prints nothing and leaves the
    provider alone.  In every case it prints at most one line.  With a
    session and bytes waiting it reads every byte that is available,
    prints them as the single line [TCPDATA:<bytes>], and leaves nothing
    available. *)
Theorem C7_poll_single_push (nw : N) (rx : list ascii) (buf : WString) :
  snd (loop rx (mkWorld nw buf)) =
    snd (read_loop rx (mkWorld nw buf))
    ++ snd (poll (net (fst (read_loop rx (mkWorld nw buf)))))
    ++ [EvDelay 10]
  /\ (tcp_connected nw = false -> poll nw = (tt, nw, [EvTcpConnected]))
  /\ (List.length (serial_lines (snd (poll nw))) <= 1)%nat
  /\ (tcp_connected nw = true -> tcp_available nw <> 0 ->
      let k := Z.to_nat (tcp_available nw) in
      serial_lines (snd (poll nw)) = [lit "TCPDATA:" ++ fst (read_n k nw)]
      /\ List.length (fst (read_n k nw)) = k
      /\ snd (fst (poll nw)) = snd (read_n k nw)
      /\ tcp_available (snd (fst (poll nw))) = 0).
Proof.
  split; [apply loop_trace |].
  destruct (drain_reads_all [] nw eq_refl) as (Hd & Hz & Hl).
  unfold poll, bind, tcpClient_connected, tcpClient_available, query,
    Serial_print, Serial_println, ret.
  destruct (tcp_connected nw) eqn:Hup.
  - destruct (tcp_available nw =? 0) eqn:Hav; cbn [negb].
    + apply Z.eqb_eq in Hav.
      split; [discriminate | split; [cbn; lia |]].
      intros _ Hne. now elim Hne.
    + rewrite Hd. cbn [fst snd app].
      assert (Hlines :
        serial_lines
          (EvTcpConnected :: EvTcpAvailable ::
           drain_events (Z.to_nat (tcp_available nw)) ++
           [EvSerialPrint (lit "TCPDATA:");
            EvSerialPrintln
              (fst (read_n (Z.to_nat (tcp_available nw)) nw))])
        = [lit "TCPDATA:" ++
           fst (read_n (Z.to_nat (tcp_available nw)) nw)]).
      { unfold serial_lines. cbn [render].
        rewrite render_app, render_drain_events. reflexivity. }
      split; [discriminate | split].
      * rewrite Hlines. cbn. lia.
      * intros _ _. cbv zeta. auto.
  - split; [reflexivity | split; [cbn; lia | discriminate]].
Qed.

(** *** processCommand: the CONNECT branch *)

Lemma connect_fields (ssid password : WString) :
  lacks ":" ssid = true -> nul_free ssid = true ->
  let cmd := lit "CONNECT:" ++ ssid ++ ":"%char :: password in
  WStr.indexOf cmd ":" 8 = 8 + WStr.length ssid
  /\ WStr.substring cmd 8 (8 + WStr.length ssid) = ssid
  /\ WStr.substring_from cmd (8 + WStr.length ssid + 1) = password.
Proof.
  intros Hs Hn cmd. pose proof (length_nonneg ssid) as Hl.
  split; [| split].
  - unfold WStr.indexOf, cmd. rewrite !length_app_Z.
    change (WStr.length (lit "CONNECT:")) with 8.
    change (WStr.length (":"%char :: password))
      with (Z.of_nat (S (List.length password))).
    destruct (8 + (WStr.length ssid + Z.of_nat (S (List.length password))) <=? 8)
      eqn:E; [apply Z.leb_le in E; lia |].
    change (skipn (Z.to_nat 8) (lit "CONNECT:" ++ ssid ++ ":"%char :: password))
      with (ssid ++ ":"%char :: password).
    now apply scan_first_found.
  - apply (@substring_middle (lit "CONNECT:") ssid (":"%char :: password)).
    right. discriminate.
  - unfold cmd.
    replace (lit "CONNECT:" ++ ssid ++ ":"%char :: password)
      with ((lit "CONNECT:" ++ ssid ++ [":"%char]) ++ password)
      by (now rewrite <- !app_assoc).
    replace (8 + WStr.length ssid + 1)
      with (WStr.length (lit "CONNECT:" ++ ssid ++ [":"%char])).
    + apply substring_from_suffix.
    + rewrite !length_app_Z.
      change (WStr.length (lit "CONNECT:")) with 8.
      change (WStr.length [":"%char]) with 1. lia.
Qed.

Lemma connect_no_colon (rest : WString) :
  lacks ":" (WStr.c_str rest) = true ->
  WStr.indexOf (lit "CONNECT:" ++ rest) ":" 8 = -1.
Proof.
  intros H. unfold WStr.indexOf.
  destruct (WStr.length (lit "CONNECT:" ++ rest) <=? 8); [reflexivity |].
  change (skipn (Z.to_nat 8) (lit "CONNECT:" ++ rest)) with rest.
  now apply scan_first_absent.
Qed.

(** C2 (as amended). A trimmed line [CONNECT:<ssid>:<password>] that
    holds no NUL byte, with no colon in [<ssid>], is handled as the
    connection to [<ssid>] with [<password>], whatever further colons the
    password holds; so [CONNECT:MySSID:pa:ss:word] gives [MySSID] and
    [pa:ss:word].  A trimmed line [CONNECT:<rest>] with no colon in
    [<rest>] before its first NUL byte, so one with no colon at all, is
    answered by the format error alone, a line that no unknown-command
    answer equals. *)
Theorem C2_connect_splits_on_first_colon
    (ssid password rest raw : WString) (nw : N) :
  (lacks ":" ssid = true ->
   nul_free ssid = true -> nul_free password = true ->
   WStr.trim (lit "CONNECT:" ++ ssid ++ ":"%char :: password)
     = lit "CONNECT:" ++ ssid ++ ":"%char :: password ->
   processCommand (lit "CONNECT:" ++ ssid ++ ":"%char :: password) nw
     = connectToWiFi ssid password nw)
  /\ processCommand (lit "CONNECT:MySSID:pa:ss:word") nw
       = connectToWiFi (lit "MySSID") (lit "pa:ss:word") nw
  /\ (lacks ":" (WStr.c_str rest) = true ->
      WStr.trim (lit "CONNECT:" ++ rest) = lit "CONNECT:" ++ rest ->
      processCommand (lit "CONNECT:" ++ rest) nw
        = (tt, nw,
           [EvSerialPrintln
              (lit "ERROR:Invalid CONNECT format. Use CONNECT:SSID:PASSWORD")]))
  /\ (lacks ":" rest = true -> lacks ":" (WStr.c_str rest) = true)
  /\ lit "ERROR:Invalid CONNECT format. Use CONNECT:SSID:PASSWORD"
       <> lit "ERROR:Unknown command: " ++ raw.
Proof.
  split; [| split; [| split; [| split]]].
  - intros Hs Hn _ Ht. unfold processCommand. rewrite Ht. cbv zeta.
    rewrite startsWith_app.
    destruct (connect_fields ssid password Hs Hn) as (Hi & Hsub & Hpw).
    cbv zeta in Hi, Hsub, Hpw. rewrite Hi, Hsub, Hpw.
    pose proof (length_nonneg ssid).
    destruct (0 <? 8 + WStr.length ssid) eqn:E;
      [reflexivity | apply Z.ltb_ge in E; lia].
  - reflexivity.
  - intros Hr Ht. unfold processCommand. rewrite Ht. cbv zeta.
    rewrite startsWith_app, connect_no_colon by assumption.
    reflexivity.
  - apply lacks_c_str.
  - discriminate.
Qed.

(** *** processCommand: the TCPCONNECT branch *)

Lemma route_tcpconnect (x : WString) :
  let cmd := lit "TCPCONNECT:" ++ x in
  WStr.startsWith cmd (lit "CONNECT:") = false
  /\ WStr.equals cmd (lit "STATUS") = false
  /\ WStr.equals cmd (lit "SCAN") = false
  /\ WStr.equals cmd (lit "DISCONNECT") = false.
Proof. repeat split. Qed.

Lemma tcpconnect_fields (host field : WString) :
  lacks ":" field = true -> nul_free host = true ->
  let cmd := lit "TCPCONNECT:" ++ host ++ ":"%char :: field in
  WStr.lastIndexOf cmd ":" = 11 + WStr.length host
  /\ WStr.substring cmd 11 (11 + WStr.length host) = host
  /\ WStr.substring_from cmd (11 + WStr.length host + 1) = field.
Proof.
  intros Hf Hn cmd. split; [| split].
  - unfold cmd. rewrite app_assoc, lastIndexOf_split.
    + rewrite length_app_Z. reflexivity.
    + reflexivity.
    + rewrite nul_free_app, Hn. reflexivity.
    + now apply lacks_c_str.
  - apply (@substring_middle (lit "TCPCONNECT:") host (":"%char :: field)).
    right. discriminate.
  - unfold cmd.
    replace (lit "TCPCONNECT:" ++ host ++ ":"%char :: field)
      with ((lit "TCPCONNECT:" ++ host ++ [":"%char]) ++ field)
      by (now rewrite <- !app_assoc).
    replace (11 + WStr.length host + 1)
      with (WStr.length (lit "TCPCONNECT:" ++ host ++ [":"%char])).
    + apply substring_from_suffix.
    + rewrite !length_app_Z.
      change (WStr.length (lit "TCPCONNECT:")) with 11.
      change (WStr.length [":"%char]) with 1. lia.
Qed.

Lemma tcpconnect_dispatch (host field : WString) (nw : N) :
  lacks ":" field = true -> nul_free host = true ->
  WStr.trim (lit "TCPCONNECT:" ++ host ++ ":"%char :: field)
    = lit "TCPCONNECT:" ++ host ++ ":"%char :: field ->
  processCommand (lit "TCPCONNECT:" ++ host ++ ":"%char :: field) nw =
    if 11 <? 11 + WStr.length host
    then connectTCP host (WStr.toInt field) nw
    else (tt, nw, [EvSerialPrintln (lit "ERROR:Invalid TCPCONNECT format")]).
Proof.
  intros Hf Hn Ht. unfold processCommand. rewrite Ht. cbv zeta.
  destruct (route_tcpconnect (host ++ ":"%char :: field)) as (R1 & R2 & R3 & R4).
  cbv zeta in R1, R2, R3, R4. rewrite R1, R2, R3, R4, startsWith_app.
  destruct (tcpconnect_fields host field Hf Hn) as (Hi & Hh & Hp).
  cbv zeta in Hi, Hh, Hp. rewrite Hi, Hh, Hp.
  destruct (11 <? 11 + WStr.length host); reflexivity.
Qed.


Lemma host_nonempty (host : WString) :
  host <> [] -> (11 <? 11 + WStr.length host) = true.
Proof.
  intros H. apply Z.ltb_lt. destruct host; [congruence |].
  unfold WStr.length. simpl List.length. lia.
Qed.

Lemma digits_decimal (s : WString) : forall acc,
  all_digits s = true ->
  WStr.digits s acc =
    fold_left (fun a c => 10 * a + (Z.of_nat (nat_of_ascii c) - 48)) s acc.
Proof.
  induction s as [|c s IH]; intros acc H; [reflexivity |].
  cbn [all_digits forallb] in H. apply andb_true_iff in H.
  destruct H as [Hc Hs]. cbn [WStr.digits fold_left].
  unfold WStr.digit in *.
  destruct ((48 <=? Z.of_nat (nat_of_ascii c)) &&
            (Z.of_nat (nat_of_ascii c) <=? 57)); [| discriminate].
  now apply IH.
Qed.

Lemma digits_lower_bound (s : WString) : forall acc,
  0 <= acc -> acc <= WStr.digits s acc.
Proof.
  induction s as [|c s IH]; intros acc H; cbn [WStr.digits]; [lia |].
  unfold WStr.digit.
  destruct ((48 <=? Z.of_nat (nat_of_ascii c)) &&
            (Z.of_nat (nat_of_ascii c) <=? 57)) eqn:E; [| lia].
  apply andb_true_iff in E. destruct E as [E1 E2].
  apply Z.leb_le in E1. apply Z.leb_le in E2.
  specialize (IH (10 * acc + (Z.of_nat (nat_of_ascii c) - 48))). lia.
Qed.

Lemma toInt_all_digits (s : WString) :
  all_digits s = true ->
  WStr.toInt s = Z.min WStr.LONG_MAX (decimal_value s).
Proof.
  intros H. unfold WStr.toInt, decimal_value.
  rewrite <- digits_decimal by assumption.
  pose proof (digits_lower_bound s (acc := 0) ltac:(lia)) as Hnn.
  assert (Hv : match WStr.drop_space s with
               | [] => 0
               | x :: s' =>
                   if Ascii.eqb x "-" then - WStr.digits s' 0
                   else if Ascii.eqb x "+" then WStr.digits s' 0
                   else WStr.digits (x :: s') 0
               end = WStr.digits s 0).
  { destruct s as [|c s]; [reflexivity |].
    cbn [all_digits forallb] in H. apply andb_true_iff in H.
    destruct H as [Hc _]. cbn [WStr.drop_space].
    unfold WStr.digit in Hc. unfold WStr.isspace.
    destruct ((48 <=? Z.of_nat (nat_of_ascii c)) &&
              (Z.of_nat (nat_of_ascii c) <=? 57)) eqn:E; [| discriminate].
    apply andb_true_iff in E. destruct E as [E1 E2].
    apply Z.leb_le in E1. apply Z.leb_le in E2.
    destruct (Z.of_nat (nat_of_ascii c) =? 32) eqn:E3;
      [apply Z.eqb_eq in E3; lia |].
    destruct (Z.of_nat (nat_of_ascii c) <=? 13) eqn:E4;
      [apply Z.leb_le in E4; lia |].
    rewrite andb_false_r. cbn [orb].
    destruct (Ascii.eqb c "-") eqn:E5;
      [apply Ascii.eqb_eq in E5; subst c; cbn in E1; lia |].
    destruct (Ascii.eqb c "+") eqn:E6;
      [apply Ascii.eqb_eq in E6; subst c; cbn in E1; lia |].
    reflexivity. }
  rewrite Hv. unfold WStr.LONG_MIN, WStr.LONG_MAX. lia.
Qed.

Lemma digits_no_digit (s : WString) :
  is_digit s = false -> WStr.digits s 0 = 0.
Proof.
  destruct s as [|c s]; [reflexivity |]. cbn [is_digit WStr.digits].
  destruct (WStr.digit c); [discriminate | reflexivity].
Qed.

Lemma toInt_not_a_number (s : WString) :
  starts_number s = false -> WStr.toInt s = 0.
Proof.
  unfold starts_number, WStr.toInt. intros H.
  destruct (WStr.drop_space s) as [|c r]; [reflexivity |].
  destruct (Ascii.eqb c "-") eqn:E1; cbn [orb] in H.
  - now rewrite digits_no_digit.
  - destruct (Ascii.eqb c "+") eqn:E2.
    + now rewrite digits_no_digit.
    + now rewrite digits_no_digit.
Qed.



Lemma toInt_minus_digits (ds : WString) :
  all_digits ds = true ->
  WStr.toInt ("-"%char :: ds) = Z.max WStr.LONG_MIN (- decimal_value ds).
Proof.
  intros Hd. unfold WStr.toInt, decimal_value.
  rewrite <- digits_decimal by assumption.
  pose proof (digits_lower_bound ds (acc := 0) ltac:(lia)) as Hnn.
  change (WStr.drop_space ("-"%char :: ds)) with ("-"%char :: ds).
  cbv iota. rewrite Ascii.eqb_refl.
  unfold WStr.LONG_MIN, WStr.LONG_MAX. lia.
Qed.



(** C3 (as amended). A trimmed line [TCPCONNECT:<host>:<field>], with a
    host that is not empty and holds no NUL byte and no colon in
    [<field>], is handled as the TCP connection to [<host>] on the port
    [toInt(<field>)]; so [TCPCONNECT:10.0.0.5:8080] gives [10.0.0.5] and
    [8080].  For a field of decimal digits the port is the number they
    denote, capped at the largest 32-bit value, hence not negative; for a
    minus sign followed by digits it is minus that number, not below the
    least 32-bit value, hence not positive; for a field that does not
    begin with a number the port is [0] and the connection is still
    attempted; and the decimal text of a 32-bit number, as [print]
    writes it, is read back as that number. *)
Theorem C3_tcpconnect_splits_on_last_colon
    (host field : WString) (port : Z) (nw : N) :
  (host <> [] -> nul_free host = true -> lacks ":" field = true ->
   WStr.trim (lit "TCPCONNECT:" ++ host ++ ":"%char :: field)
     = lit "TCPCONNECT:" ++ host ++ ":"%char :: field ->
   processCommand (lit "TCPCONNECT:" ++ host ++ ":"%char :: field) nw
     = connectTCP host (WStr.toInt field) nw)
  /\ processCommand (lit "TCPCONNECT:10.0.0.5:8080") nw
       = connectTCP (lit "10.0.0.5") 8080 nw
  /\ (all_digits field = true ->
      WStr.toInt field = Z.min WStr.LONG_MAX (decimal_value field)
      /\ 0 <= WStr.toInt field)
  /\ (all_digits field = true ->
      WStr.toInt ("-"%char :: field)
        = Z.max WStr.LONG_MIN (- decimal_value field)
      /\ WStr.toInt ("-"%char :: field) <= 0)
  /\ (starts_number field = false -> WStr.toInt field = 0)
  /\ (WStr.LONG_MIN <= port <= WStr.LONG_MAX ->
      WStr.toInt (print_int port) = port).
Proof.
  split; [| split; [| split; [| split; [| split]]]];
    [| | | | | apply toInt_print_int].
  - intros Hh Hn Hf Ht. rewrite tcpconnect_dispatch by assumption.
    now rewrite host_nonempty.
  - reflexivity.
  - intros Hd. pose proof (toInt_all_digits field Hd) as Ht.
    split; [exact Ht |]. rewrite Ht.
    unfold decimal_value. rewrite <- digits_decimal by assumption.
    pose proof (digits_lower_bound field (acc := 0) ltac:(lia)).
    unfold WStr.LONG_MAX. lia.
  - intros Hd. pose proof (toInt_minus_digits field Hd) as Ht.
    split; [exact Ht |]. rewrite Ht.
    unfold decimal_value. rewrite <- digits_decimal by assumption.
    pose proof (digits_lower_bound field (acc := 0) ltac:(lia)).
    unfold WStr.LONG_MIN. lia.
  - apply toInt_not_a_number.
Qed.


(** *** processCommand: the TCPSEND branch *)

Lemma route_tcpsend (x : WString) :
  let cmd := lit "TCPSEND:" ++ x in
  WStr.startsWith cmd (lit "CONNECT:") = false
  /\ WStr.equals cmd (lit "STATUS") = false
  /\ WStr.equals cmd (lit "SCAN") = false
  /\ WStr.equals cmd (lit "DISCONNECT") = false
  /\ WStr.startsWith cmd (lit "TCPCONNECT:") = false.
Proof. repeat split. Qed.

Lemma tcpsend_dispatch (payload : WString) (nw : N) :
  processCommand (lit "TCPSEND:" ++ payload) nw = sendTCP (rtrim payload) nw.
Proof.
  unfold processCommand.
  change (lit "TCPSEND:" ++ payload)
    with (("T"%char :: lit "CPSEND:") ++ payload).
  rewrite trim_after_prefix by reflexivity.
  change (("T"%char :: lit "CPSEND:") ++ rtrim payload)
    with (lit "TCPSEND:" ++ rtrim payload).
  cbv zeta.
  destruct (route_tcpsend (rtrim payload)) as (R1 & R2 & R3 & R4 & R5).
  cbv zeta in R1, R2, R3, R4, R5.
  rewrite R1, R2, R3, R4, R5, startsWith_app.
  change 8 with (WStr.length (lit "TCPSEND:")).
  now rewrite substring_from_suffix.
Qed.

(** C4. With no TCP session, [TCPSEND:<payload>] asks the socket whether
    it is connected and prints the one line [ERROR:Not connected]: the
    provider state is left as it was and no call is made on the
    association side. *)
Theorem C4_tcpsend_without_session (payload : WString) (nw : N) :
  tcp_connected nw = false ->
  processCommand (lit "TCPSEND:" ++ payload) nw
    = (tt, nw, [EvTcpConnected; EvSerialPrintln (lit "ERROR:Not connected")])
  /\ serial_lines (snd (processCommand (lit "TCPSEND:" ++ payload) nw))
       = [lit "ERROR:Not connected"]
  /\ existsb is_wifi_event (snd (processCommand (lit "TCPSEND:" ++ payload) nw))
       = false
  /\ snd (fst (processCommand (lit "TCPSEND:" ++ payload) nw)) = nw.
Proof.
  intros Hup. rewrite tcpsend_dispatch.
  unfold sendTCP, bind, tcpClient_connected, query, Serial_println.
  rewrite Hup. cbn [fst snd app]. repeat split.
Qed.

(** C9. The bare words [CONNECT], [TCPCONNECT] and [TCPSEND], without
    the colon, reach the last branch: the answer is
    [ERROR:Unknown command: <line>] and nothing else happens. *)
Theorem C9_bare_verb_is_unknown (nw : N) :
  processCommand (lit "CONNECT") nw
    = (tt, nw, [EvSerialPrint (lit "ERROR:Unknown command: ");
               EvSerialPrintln (lit "CONNECT")])
  /\ processCommand (lit "TCPCONNECT") nw
       = (tt, nw, [EvSerialPrint (lit "ERROR:Unknown command: ");
                  EvSerialPrintln (lit "TCPCONNECT")])
  /\ processCommand (lit "TCPSEND") nw
       = (tt, nw, [EvSerialPrint (lit "ERROR:Unknown command: ");
                  EvSerialPrintln (lit "TCPSEND")])
  /\ serial_lines (snd (processCommand (lit "CONNECT") nw))
       = [lit "ERROR:Unknown command: CONNECT"]
  /\ serial_lines (snd (processCommand (lit "TCPCONNECT") nw))
       = [lit "ERROR:Unknown command: TCPCONNECT"]
  /\ serial_lines (snd (processCommand (lit "TCPSEND") nw))
       = [lit "ERROR:Unknown command: TCPSEND"].
Proof. repeat split. Qed.

(** *** The serial read loop and the tick *)

(** The read loop hands to [processCommand] exactly the lines that
    [feed_all] lists, in order, and leaves the buffer that [feed_all]
    leaves. *)
Lemma read_loop_dispatches (rx : list ascii) : forall (nw : N) (buf : WString),
  read_loop rx (mkWorld nw buf) =
    (mkWorld (snd (fst (dispatch_all (fst (feed_all rx buf)) nw)))
             (snd (feed_all rx buf)),
     snd (dispatch_all (fst (feed_all rx buf)) nw)).
Proof.
  induction rx as [|c rest IH]; intros nw buf; [reflexivity |].
  cbn [read_loop feed_all]. unfold read_byte. cbn [serialBuffer net].
  destruct (accumulate c buf) as [[line|] buf'].
  - destruct (feed_all rest buf') as [lines final] eqn:Hf.
    cbn [fst snd dispatch_all]. unfold bind.
    destruct (processCommand line nw) as [[u n1] e1].
    rewrite IH, Hf. cbn [fst snd].
    destruct (dispatch_all lines n1) as [[u2 n2] e2]. reflexivity.
  - rewrite IH. destruct (feed_all rest buf') as [lines final].
    reflexivity.
Qed.

(** C1 (as amended). Fed byte by byte from an empty buffer, the
    accumulator hands over, in order, exactly the non-empty pieces of the
    input split at every LF and CR, except that the piece after the last
    terminator, when it is not empty, is not handed over yet: it is what
    the buffer holds.  The buffer never holds a terminator, a line that
    is handed over is the whole non-empty buffer, and the buffer is empty
    afterwards.  The lines handed over are the commands that the read
    loop dispatches. *)
Theorem C1_line_accumulator (input : list ascii) (nw : N) :
  nonempty_splits input =
    fst (feed_all input []) ++ pending (snd (feed_all input []))
  /\ forallb (fun c => negb (is_terminator c)) (snd (feed_all input [])) = true
  /\ (forall c buf,
        match fst (accumulate c buf) with
        | Some line =>
            line = buf /\ non_empty line = true /\ snd (accumulate c buf) = []
        | None => True
        end)
  /\ read_loop input (mkWorld nw []) =
       (mkWorld (snd (fst (dispatch_all (fst (feed_all input [])) nw)))
                (snd (feed_all input [])),
        snd (dispatch_all (fst (feed_all input [])) nw)).
Proof.
  destruct (feed_all_splits input [] eq_refl) as [Hs Hb].
  split; [exact Hs | split; [exact Hb | split]].
  - intros c buf. unfold accumulate.
    destruct (is_terminator c); [| exact I].
    rewrite length_pos_iff.
    destruct (non_empty buf) eqn:E; cbn [fst snd]; auto.
  - apply read_loop_dispatches.
Qed.

End Handlers.

(* ================================================================== *)
(** ** The accumulator has no length bound *)
(* ================================================================== *)

Lemma repeat_clean (k : nat) :
  forallb (fun c => negb (is_terminator c)) (repeat "a"%char k) = true.
Proof. induction k as [|k IH]; [reflexivity | exact IH]. Qed.

(** C8 (as amended). The accumulator has no cap: bytes that are not
    terminators are appended to the buffer one after the other, none is
    dropped and no line or overflow is reported, so the buffer grows by
    the length of the input. *)
Theorem C8_buffer_grows_without_cap (input : list ascii) (buf : WString) :
  forallb (fun c => negb (is_terminator c)) input = true ->
  feed_all input buf = ([], buf ++ input)
  /\ List.length (snd (feed_all input buf))
       = (List.length buf + List.length input)%nat.
Proof.
  intros H. rewrite feed_all_clean by assumption.
  split; [reflexivity |]. cbn [snd]. apply length_app.
Qed.

Lemma C8_buffer_grows_without_cap_witness :
  feed_all (lit "AT+GMR") [] = ([], lit "AT+GMR").
Proof.
  exact (proj1 (C8_buffer_grows_without_cap (lit "AT+GMR") [] eq_refl)).
Defined.

(** No bound holds for the buffer over all inputs. *)
Lemma C8_buffer_unbounded :
  ~ exists cap : nat,
      forall input, (List.length (snd (feed_all input [])) <= cap)%nat.
Proof.
  intros [cap H]. specialize (H (repeat "a"%char (S cap))).
  rewrite feed_all_clean in H by apply repeat_clean.
  cbn [snd app] in H. rewrite repeat_length in H. lia.
Qed.

(* ================================================================== *)
(** ** Runs on the simulated provider *)
(* ================================================================== *)

(** An input that does not end with a terminator: its last piece is a
    piece of the split, and is not handed over. *)
Lemma C1_unterminated_tail_not_emitted :
  nonempty_splits (lit "SCAN") = [lit "SCAN"]
  /\ fst (feed_all (lit "SCAN") []) = []
  /\ fst (feed_all (lit "SCAN") []) <> nonempty_splits (lit "SCAN").
Proof. repeat split. discriminate. Qed.

Lemma C2_connect_splits_on_first_colon_witness :
  processCommand (lit "CONNECT:home:se:cret") sim_idle
    = connectToWiFi (lit "home") (lit "se:cret") sim_idle
  /\ processCommand (lit "CONNECT:home") sim_idle
     = (tt, sim_idle,
        [EvSerialPrintln
           (lit "ERROR:Invalid CONNECT format. Use CONNECT:SSID:PASSWORD")]).
Proof.
  pose proof (C2_connect_splits_on_first_colon
                (lit "home") (lit "se:cret") (lit "home") [] sim_idle)
    as (H1 & _ & H3 & H4 & _).
  split; [exact (H1 eq_refl eq_refl eq_refl eq_refl) |].
  exact (H3 (H4 eq_refl) eq_refl).
Defined.

(** A colon that comes after a NUL byte is not seen: the line is a
    trimmed [CONNECT:<rest>] with a colon in [<rest>], and it is answered
    by the format error, not split. *)
Lemma C2_colon_after_nul_not_seen :
  lacks ":" (lit "a" ++ "000"%char :: lit "b:pw") = false
  /\ WStr.trim (lit "CONNECT:a" ++ "000"%char :: lit "b:pw")
     = lit "CONNECT:a" ++ "000"%char :: lit "b:pw"
  /\ processCommand (lit "CONNECT:a" ++ "000"%char :: lit "b:pw") sim_idle
     = (tt, sim_idle,
        [EvSerialPrintln
           (lit "ERROR:Invalid CONNECT format. Use CONNECT:SSID:PASSWORD")])
  /\ processCommand (lit "CONNECT:a" ++ "000"%char :: lit "b:pw") sim_idle
     <> connectToWiFi (lit "a" ++ "000"%char :: lit "b") (lit "pw") sim_idle.
Proof.
  split; [reflexivity | split; [reflexivity | split; [reflexivity |]]].
  vm_compute. discriminate.
Qed.

(** The trailing field [-5] gives a negative port, and a host with a NUL
    byte hides the last colon, so that the line is rejected. *)
Lemma C3_negative_port :
  processCommand (lit "TCPCONNECT:h:-5") sim_idle
    = connectTCP (lit "h") (-5) sim_idle
  /\ hd [] (serial_lines (snd (processCommand (lit "TCPCONNECT:h:-5") sim_idle)))
     = lit "TCP:Connecting to h:-5"
  /\ WStr.toInt (lit "-5") = -5
  /\ ~ 0 <= WStr.toInt (lit "-5")
  /\ processCommand (lit "TCPCONNECT:a" ++ "000"%char :: lit "b:80") sim_idle
     = (tt, sim_idle,
        [EvSerialPrintln (lit "ERROR:Invalid TCPCONNECT format")]).
Proof.
  split; [reflexivity | split; [reflexivity | split; [reflexivity | split]]].
  - vm_compute. intros H. now apply H.
  - reflexivity.
Qed.

Lemma C3_tcpconnect_splits_on_last_colon_witness :
  processCommand (lit "TCPCONNECT:fe80::1:8080") sim_idle
    = connectTCP (lit "fe80::1") 8080 sim_idle
  /\ WStr.toInt (lit "8080") = 8080
  /\ WStr.toInt (lit "-0") = 0
  /\ WStr.toInt (lit "http") = 0
  /\ WStr.toInt (print_int 8080) = 8080.
Proof.
  pose proof (C3_tcpconnect_splits_on_last_colon
                (lit "fe80::1") (lit "8080") 8080 sim_idle)
    as (H1 & _ & H3 & _ & _ & H5).
  pose proof (C3_tcpconnect_splits_on_last_colon
                (lit "fe80::1") (lit "0") 0 sim_idle)
    as (_ & _ & _ & Hm & _).
  pose proof (C3_tcpconnect_splits_on_last_colon
                (lit "fe80::1") (lit "http") 0 sim_idle)
    as (_ & _ & _ & _ & H4 & _).
  split; [| split; [| split; [| split]]].
  - exact (H1 ltac:(discriminate) eq_refl eq_refl eq_refl).
  - exact (proj1 (H3 eq_refl)).
  - exact (proj1 (Hm eq_refl)).
  - exact (H4 eq_refl).
  - apply H5. unfold WStr.LONG_MIN, WStr.LONG_MAX. lia.
Defined.

Lemma C4_tcpsend_without_session_witness :
  processCommand (lit "TCPSEND:hello") sim_idle
    = (tt, sim_idle,
       [EvTcpConnected; EvSerialPrintln (lit "ERROR:Not connected")]).
Proof.
  exact (proj1 (C4_tcpsend_without_session (lit "hello") sim_idle eq_refl)).
Defined.

Lemma C7_poll_single_push_witness :
  poll sim_idle = (tt, sim_idle, [EvTcpConnected])
  /\ serial_lines (snd (poll (mkSim 3 None true (lit "hello") [])))
     = [lit "TCPDATA:hello"].
Proof.
  split.
  - exact (proj1 (proj2 (C7_poll_single_push sim_idle [] [])) eq_refl).
  - exact (proj1 (proj2 (proj2 (proj2 (C7_poll_single_push
                                  (mkSim 3 None true (lit "hello") []) [] [])))
                   eq_refl ltac:(discriminate))).
Defined.



(* ================================================================== *)
(** ** Further properties of the dispatch *)
(* ================================================================== *)

Lemma drop_space_blank (a s : WString) :
  blank a = true -> WStr.drop_space (a ++ s) = WStr.drop_space s.
Proof.
  induction a as [|c a IH]; intros H; [reflexivity |].
  cbn [blank forallb] in H. apply andb_true_iff in H. destruct H as [Hc Ha].
  cbn [app WStr.drop_space]. rewrite Hc. now apply IH.
Qed.

Lemma blank_rev (a : WString) : blank a = true -> blank (rev a) = true.
Proof.
  unfold blank. rewrite !forallb_forall. intros H x Hx.
  apply H. now apply in_rev.
Qed.

Lemma drop_space_all_blank (a : WString) :
  blank a = true -> WStr.drop_space a = [].
Proof.
  intros H. rewrite <- (app_nil_r a). now rewrite drop_space_blank.
Qed.

(** White space around a line does not change its trim. *)
Lemma trim_blanks (a s b : WString) :
  blank a = true -> blank b = true ->
  WStr.trim (a ++ s ++ b) = WStr.trim s.
Proof.
  intros Ha Hb. unfold WStr.trim. rewrite drop_space_blank by assumption.
  rewrite drop_space_app.
  destruct (WStr.drop_space s) as [|c r] eqn:E.
  - now rewrite (@drop_space_all_blank b Hb).
  - rewrite rev_app_distr.
    now rewrite (@drop_space_blank (rev b) (rev (c :: r)) (blank_rev b Hb)).
Qed.

Section Dispatch.

Context {N : Type} {NP : NetworkProvider N}.

(** X1. White space before and after a command line is ignored: the line
    is handled exactly as the line without it. *)
Theorem X1_surrounding_blanks_ignored (a cmd b : WString) (nw : N) :
  blank a = true -> blank b = true ->
  processCommand (a ++ cmd ++ b) nw = processCommand cmd nw.
Proof.
  intros Ha Hb. unfold processCommand. now rewrite trim_blanks.
Qed.

(** X2. A line whose trim is empty or begins with a letter that starts no
    verb is answered by [ERROR:Unknown command: <trimmed line>] and by
    nothing else; a line of blanks is answered with an empty name. *)
Theorem X2_unknown_command_echo (cmd : WString) (nw : N) :
  starts_like_verb (WStr.trim cmd) = false ->
  processCommand cmd nw
    = (tt, nw, [EvSerialPrint (lit "ERROR:Unknown command: ");
                EvSerialPrintln (WStr.trim cmd)])
  /\ serial_lines (snd (processCommand cmd nw))
       = [lit "ERROR:Unknown command: " ++ WStr.trim cmd].
Proof.
  intros H. unfold processCommand.
  destruct (WStr.trim cmd) as [|c r]; [split; reflexivity |].
  cbn [starts_like_verb] in H.
  repeat (apply orb_false_iff in H; destruct H as [H ?]).
  cbv zeta.
  cbn [WStr.startsWith WStr.equals lit list_ascii_of_string].
  repeat match goal with E : Ascii.eqb c _ = false |- _ => rewrite E; clear E end.
  cbn [andb]. destruct (WStr.is_nul c); split; reflexivity.
Qed.

Lemma equals_longer (v x : WString) (c : ascii) :
  nul_free v = true -> WStr.is_nul c = false ->
  WStr.equals (v ++ c :: x) v = false.
Proof.
  intros Hv Hc. induction v as [|y v IH]; [exact Hc |].
  cbn [nul_free lacks forallb] in Hv. apply andb_true_iff in Hv.
  destruct Hv as [Hy Hv]. apply negb_true_iff in Hy.
  cbn [app WStr.equals]. unfold WStr.is_nul at 1. rewrite Hy.
  now rewrite (IH Hv), andb_false_r.
Qed.

(** X3. The verbs compared with [==] take no argument: a trimmed line
    that goes on after [STATUS], [SCAN], [DISCONNECT], [TCPCLOSE] or [IP]
    with a byte other than NUL is an unknown command, and the provider is
    not touched.  When the byte after the verb is NUL the comparison
    stops there, and the line is handled as the verb alone. *)
Theorem X3_exact_verbs_take_no_argument (verb x : WString) (nw : N) :
  In verb exact_verbs ->
  (x <> [] -> WStr.is_nul (hd "a"%char x) = false ->
   WStr.trim (verb ++ x) = verb ++ x ->
   processCommand (verb ++ x) nw
     = (tt, nw, [EvSerialPrint (lit "ERROR:Unknown command: ");
                 EvSerialPrintln (verb ++ x)]))
  /\ (WStr.trim (verb ++ "000"%char :: x) = verb ++ "000"%char :: x ->
      processCommand (verb ++ "000"%char :: x) nw = processCommand verb nw).
Proof.
  intros Hv. cbn [exact_verbs In] in Hv. split.
  - intros Hx Hn Ht. unfold processCommand. rewrite Ht. cbv zeta.
    destruct x as [|c x]; [congruence |]. cbn [hd] in Hn.
    destruct Hv as [<- | [<- | [<- | [<- | [<- | []]]]]];
      match goal with
      | |- context [WStr.equals (?v ++ c :: x) ?v] =>
          rewrite (equals_longer v x c eq_refl Hn)
      end; reflexivity.
  - intros Ht. unfold processCommand at 1. rewrite Ht. cbv zeta.
    destruct Hv as [<- | [<- | [<- | [<- | [<- | []]]]]]; reflexivity.
Qed.

(** X4. [TCPCLOSE] stops the socket and answers
    [OK:TCP connection closed] when a session is up, and otherwise only
    answers [ERROR:No active TCP connection]; when stopping takes the
    session down, two in a row give the first answer and then the
    second. *)
Theorem X4_tcpclose (nw : N) :
  (tcp_connected nw = true ->
   processCommand (lit "TCPCLOSE") nw
     = (tt, tcp_stop nw,
        [EvTcpConnected; EvTcpStop;
         EvSerialPrintln (lit "OK:TCP connection closed")]))
  /\ (tcp_connected nw = false ->
      processCommand (lit "TCPCLOSE") nw
        = (tt, nw,
           [EvTcpConnected;
            EvSerialPrintln (lit "ERROR:No active TCP connection")]))
  /\ (tcp_connected nw = true -> tcp_connected (tcp_stop nw) = false ->
      serial_lines
        (snd (dispatch_all [lit "TCPCLOSE"; lit "TCPCLOSE"] nw))
        = [lit "OK:TCP connection closed";
           lit "ERROR:No active TCP connection"]).
Proof.
  assert (Hrun : processCommand (lit "TCPCLOSE") nw =
                 if tcp_connected nw
                 then (tt, tcp_stop nw,
                       [EvTcpConnected; EvTcpStop;
                        EvSerialPrintln (lit "OK:TCP connection closed")])
                 else (tt, nw,
                       [EvTcpConnected;
                        EvSerialPrintln (lit "ERROR:No active TCP connection")])).
  { unfold processCommand. cbn [WStr.trim]. cbv zeta.
    change (WStr.trim (lit "TCPCLOSE")) with (lit "TCPCLOSE").
    cbn [WStr.startsWith WStr.equals WStr.is_nul lit list_ascii_of_string Ascii.eqb
         Bool.eqb andb].
    unfold bind, tcpClient_connected, tcpClient_stop, query, command,
      Serial_println.
    destruct (tcp_connected nw); reflexivity. }
  split; [| split].
  - intros Hup. now rewrite Hrun, Hup.
  - intros Hup. now rewrite Hrun, Hup.
  - intros Hup Hdown. cbn [dispatch_all]. unfold bind at 1.
    rewrite Hrun, Hup. unfold bind, ret.
    assert (Hsnd : processCommand (lit "TCPCLOSE") (tcp_stop nw) =
                   (tt, tcp_stop nw,
                    [EvTcpConnected;
                     EvSerialPrintln (lit "ERROR:No active TCP connection")])).
    { unfold processCommand.
      change (WStr.trim (lit "TCPCLOSE")) with (lit "TCPCLOSE"). cbv zeta.
      cbn [WStr.startsWith WStr.equals WStr.is_nul lit list_ascii_of_string Ascii.eqb
           Bool.eqb andb].
      unfold bind, tcpClient_connected, tcpClient_stop, query, command,
        Serial_println.
      now rewrite Hdown. }
    rewrite Hsnd. reflexivity.
Qed.

(** X5. [DISCONNECT] never asks for the status: each one calls
    [WiFi.disconnect] and answers [OK:Disconnected], however many times it
    is repeated. *)
Theorem X5_disconnect_unconditional (r : nat) (nw : N) :
  processCommand (lit "DISCONNECT") nw
    = (tt, wifi_disconnect nw,
       [EvWiFiDisconnect; EvSerialPrintln (lit "OK:Disconnected")])
  /\ serial_lines (snd (dispatch_all (repeat (lit "DISCONNECT") r) nw))
       = repeat (lit "OK:Disconnected") r.
Proof.
  split; [reflexivity |].
  revert nw. induction r as [|r IH]; intros nw; [reflexivity |].
  cbn [repeat dispatch_all]. unfold bind.
  change (processCommand (lit "DISCONNECT") nw)
    with (tt, wifi_disconnect nw,
          [EvWiFiDisconnect; EvSerialPrintln (lit "OK:Disconnected")]).
  cbv iota beta.
  specialize (IH (wifi_disconnect nw)).
  destruct (dispatch_all (repeat (lit "DISCONNECT") r) (wifi_disconnect nw))
    as [[u n2] e2].
  cbn [snd] in *. unfold serial_lines in *.
  rewrite render_app. cbn [render fst snd app]. now rewrite IH.
Qed.

(** X6. [STATUS] only reads the provider: when associated it prints the
    four lines [STATUS:CONNECTED], [SSID:<ssid>], [IP:<addr>] and
    [RSSI:<n> dBm], otherwise the one line [STATUS:DISCONNECTED]. *)
Theorem X6_status_report (nw : N) :
  processCommand (lit "STATUS") nw = getStatus nw
  /\ snd (fst (getStatus nw)) = nw
  /\ serial_lines (snd (getStatus nw))
       = (if wifi_status nw =? WL_CONNECTED
          then [lit "STATUS:CONNECTED";
                lit "SSID:" ++ wifi_SSID nw;
                lit "IP:" ++ wifi_localIP nw;
                lit "RSSI:" ++ print_int (wifi_RSSI nw) ++ lit " dBm"]
          else [lit "STATUS:DISCONNECTED"])
  /\ existsb is_wifi_event (snd (getStatus nw)) = true.
Proof.
  split; [reflexivity |].
  unfold getStatus, bind, WiFi_status, WiFi_SSID, WiFi_localIP, WiFi_RSSI,
    query, Serial_print, Serial_println.
  destruct (wifi_status nw =? WL_CONNECTED); cbn [fst snd app];
    (split; [reflexivity | split; [| reflexivity]]).
  - unfold serial_lines. cbn [render fst app].
    now rewrite <- !app_assoc.
  - reflexivity.
Qed.

(** X7. [IP] only reads the provider: it prints [IP:<addr>] when
    associated and [ERROR:Not connected to WiFi] otherwise. *)
Theorem X7_ip_report (nw : N) :
  snd (fst (processCommand (lit "IP") nw)) = nw
  /\ serial_lines (snd (processCommand (lit "IP") nw))
       = [if wifi_status nw =? WL_CONNECTED
          then lit "IP:" ++ wifi_localIP nw
          else lit "ERROR:Not connected to WiFi"].
Proof.
  unfold processCommand.
  change (WStr.trim (lit "IP")) with (lit "IP"). cbv zeta.
  cbn [WStr.startsWith WStr.equals WStr.is_nul lit list_ascii_of_string Ascii.eqb
       Bool.eqb andb].
  unfold bind, WiFi_status, WiFi_localIP, query, Serial_print, Serial_println.
  destruct (wifi_status nw =? WL_CONNECTED); split; reflexivity.
Qed.

Lemma rtrim_fixed (s : WString) :
  WStr.isspace (last s "a"%char) = false -> rtrim s = s.
Proof.
  intros H. unfold rtrim.
  destruct (rev s) as [|c r] eqn:E.
  - apply (f_equal (@rev ascii)) in E. rewrite rev_involutive in E.
    now subst s.
  - assert (Hs : s = rev r ++ [c]).
    { rewrite <- (rev_involutive s), E. reflexivity. }
    rewrite Hs, last_last in H. cbn [WStr.drop_space]. rewrite H.
    now rewrite Hs.
Qed.

(** X8. With a session up, [TCPSEND:<payload>] writes the payload to the
    socket, colons and inner and leading blanks included, without the
    white space at its end, and answers [OK:Data sent] whatever the
    socket did with it; a payload that does not end with white space is
    written as it is. *)
Theorem X8_tcpsend_with_session (payload : WString) (nw : N) :
  tcp_connected nw = true ->
  processCommand (lit "TCPSEND:" ++ payload) nw
    = (tt, tcp_print (rtrim payload) nw,
       [EvTcpConnected; EvTcpPrint (rtrim payload);
        EvSerialPrintln (lit "OK:Data sent")])
  /\ (WStr.isspace (last payload "a"%char) = false -> rtrim payload = payload).
Proof.
  intros Hup. split; [| apply rtrim_fixed].
  rewrite tcpsend_dispatch.
  unfold sendTCP, bind, tcpClient_connected, tcpClient_print, query, command,
    Serial_println.
  now rewrite Hup.
Qed.

(** X9. [connectTCP] prints [TCP:Connecting to <host>:<port>], asks the
    socket to connect and then prints [OK:TCP connected] or
    [ERROR:TCP connection failed] as the socket answers; it never stops
    the socket first. *)
Theorem X9_connectTCP_report (host : WString) (port : Z) (nw : N) :
  snd (fst (connectTCP host port nw)) = snd (tcp_connect host port nw)
  /\ serial_lines (snd (connectTCP host port nw))
       = [lit "TCP:Connecting to " ++ host ++ lit ":" ++ print_int port;
          if fst (tcp_connect host port nw)
          then lit "OK:TCP connected"
          else lit "ERROR:TCP connection failed"]
  /\ existsb is_tcp_stop (snd (connectTCP host port nw)) = false.
Proof.
  unfold connectTCP, bind, Serial_print, Serial_println, tcpClient_connect,
    call.
  cbn [fst snd app].
  destruct (fst (tcp_connect host port nw)); cbn [fst snd app];
    (split; [reflexivity | split; [| reflexivity]]);
    unfold serial_lines; cbn [render fst app]; now rewrite <- !app_assoc.
Qed.

(** X10. A line [CONNECT:<ssid>:] with nothing after the second colon,
    and no NUL byte in [<ssid>], is not rejected: the connection to
    [<ssid>] is started with an empty password, and an empty [<ssid>] is
    accepted as well. *)
Theorem X10_connect_empty_password (ssid : WString) (nw : N) :
  lacks ":" ssid = true -> nul_free ssid = true ->
  processCommand (lit "CONNECT:" ++ ssid ++ lit ":") nw
    = connectToWiFi ssid [] nw.
Proof.
  intros Hs Hn. change (lit ":") with [":"%char].
  assert (Ht : WStr.trim (lit "CONNECT:" ++ ssid ++ [":"%char])
               = lit "CONNECT:" ++ ssid ++ [":"%char]).
  { change (lit "CONNECT:" ++ ssid ++ [":"%char])
      with ("C"%char :: (lit "ONNECT:" ++ ssid ++ [":"%char])).
    apply trim_closed; [reflexivity |].
    rewrite app_assoc, last_last. reflexivity. }
  unfold processCommand. rewrite Ht. cbv zeta. rewrite startsWith_app.
  destruct (connect_fields ssid [] Hs Hn) as (Hi & Hsub & Hpw).
  cbv zeta in Hi, Hsub, Hpw. rewrite Hi, Hsub, Hpw.
  pose proof (length_nonneg ssid).
  destruct (0 <? 8 + WStr.length ssid) eqn:E;
    [reflexivity | apply Z.ltb_ge in E; lia].
Qed.

(** X11. A negative count from [WiFi.scanNetworks], its failure codes, is
    not told apart from a result: it is printed as
    [SCAN:Found <n> networks], and no network is listed or asked for. *)
Theorem X11_scan_failure_printed_as_count (nw : N) :
  fst (wifi_scanNetworks nw) < 0 ->
  scanNetworks nw
    = (tt, snd (wifi_scanNetworks nw),
       [EvSerialPrintln (lit "SCANNING..."); EvWiFiScan;
        EvSerialPrint (lit "SCAN:Found ");
        EvSerialPrint (print_int (fst (wifi_scanNetworks nw)));
        EvSerialPrintln (lit " networks")])
  /\ serial_lines (snd (scanNetworks nw))
       = [lit "SCANNING...";
          lit "SCAN:Found " ++ print_int (fst (wifi_scanNetworks nw))
            ++ lit " networks"].
Proof.
  intros Hn.
  assert (Hrun : scanNetworks nw
    = (tt, snd (wifi_scanNetworks nw),
       [EvSerialPrintln (lit "SCANNING..."); EvWiFiScan;
        EvSerialPrint (lit "SCAN:Found ");
        EvSerialPrint (print_int (fst (wifi_scanNetworks nw)));
        EvSerialPrintln (lit " networks")])).
  { unfold scanNetworks, bind, Serial_println, Serial_print,
      WiFi_scanNetworks, call.
    cbn [fst snd].
    destruct (fst (wifi_scanNetworks nw) =? 0) eqn:E;
      [apply Z.eqb_eq in E; lia |].
    rewrite print_networks_run.
    replace (Z.to_nat (fst (wifi_scanNetworks nw))) with 0%nat by lia.
    reflexivity. }
  split; [exact Hrun |]. rewrite Hrun. unfold serial_lines.
  cbn [render fst snd app]. now rewrite <- !app_assoc.
Qed.

(** *** The shape of the answers *)

Lemma ends_println_app_r (l1 l2 : list Event) :
  ends_println l2 = true -> ends_println (l1 ++ l2) = true.
Proof.
  intros H. induction l1 as [|e l1 IH]; [exact H |].
  cbn [app ends_println]. destruct (l1 ++ l2) eqn:E; [| exact IH].
  destruct l1; [| discriminate E].
  cbn [app] in E. rewrite E in H. discriminate H.
Qed.

Lemma ends_println_render (t : list Event) : forall cur,
  ends_println t = true ->
  snd (render t cur) = [] /\ fst (render t cur) <> [].
Proof.
  induction t as [|e t IH]; intros cur H; [discriminate |].
  cbn [ends_println] in H. destruct t as [|e' t'].
  - destruct e; try discriminate. cbn. split; [reflexivity | discriminate].
  - specialize (IH [] H) as IH0.
    destruct e; try apply (IH _ H).
    change (render (EvSerialPrintln s :: e' :: t') cur)
      with (let (ls, c) := render (e' :: t') [] in ((cur ++ s) :: ls, c)).
    destruct (render (e' :: t') []) as [ls c].
    cbn [fst snd] in *. split; [apply IH0 | discriminate].
Qed.

Lemma ends_println_networks (n : N) (l : list Z) :
  l <> [] -> ends_println (flat_map (network_events n) l) = true.
Proof.
  induction l as [|i l IH]; intros H; [congruence |].
  cbn [flat_map]. destruct l as [|j l].
  - reflexivity.
  - apply ends_println_app_r. apply IH. discriminate.
Qed.

Lemma slept_networks (n : N) (l : list Z) :
  slept (flat_map (network_events n) l) = 0.
Proof.
  induction l as [|i l IH]; [reflexivity |].
  cbn [flat_map]. now rewrite slept_app, IH.
Qed.

Lemma connectToWiFi_ends (ssid password : WString) (nw : N) :
  ends_println (snd (connectToWiFi ssid password nw)) = true.
Proof.
  unfold connectToWiFi, bind, Serial_print, Serial_println, WiFi_begin,
    WiFi_status, WiFi_localIP, command, query.
  destruct (wait_connected 0 (wifi_begin ssid password nw)) as [[a n1] e].
  destruct (wifi_status n1 =? WL_CONNECTED); cbn [fst snd];
    repeat apply ends_println_app_r; reflexivity.
Qed.

Lemma scanNetworks_ends (nw : N) :
  ends_println (snd (scanNetworks nw)) = true
  /\ slept (snd (scanNetworks nw)) = 0.
Proof.
  unfold scanNetworks, bind, Serial_println, Serial_print,
    WiFi_scanNetworks, call.
  cbn [fst snd].
  destruct (fst (wifi_scanNetworks nw) =? 0); [split; reflexivity |].
  rewrite print_networks_run. cbn [fst snd app slept].
  rewrite slept_networks. split; [| reflexivity].
  destruct (Z.to_nat (fst (wifi_scanNetworks nw))) as [|k]; [reflexivity |].
  change (ends_println
            ([EvSerialPrintln (lit "SCANNING..."); EvWiFiScan;
              EvSerialPrint (lit "SCAN:Found ");
              EvSerialPrint (print_int (fst (wifi_scanNetworks nw)));
              EvSerialPrintln (lit " networks")]
             ++ flat_map (network_events (snd (wifi_scanNetworks nw)))
                  (indices (S k) 0)) = true).
  apply ends_println_app_r, ends_println_networks. discriminate.
Qed.

(** The answer of every command other than a connection. *)
Ltac simple_answer :=
  unfold getStatus, connectTCP, sendTCP, bind, Serial_print, Serial_println,
    WiFi_status, WiFi_SSID, WiFi_localIP, WiFi_RSSI, WiFi_disconnect,
    tcpClient_connected, tcpClient_connect, tcpClient_print, tcpClient_stop,
    query, command, call;
  cbn [fst snd];
  repeat match goal with
         | |- context [if ?b then _ else _] => destruct b
         end;
  reflexivity.

(** X12. Every command is answered: whatever the line, the calls of
    [processCommand] end with a [Serial.println], so at least one line is
    printed and no unfinished line is left on the serial port, whatever
    was pending before. *)
Theorem X12_every_command_ends_its_line (cmd : WString) (nw : N) :
  ends_println (snd (processCommand cmd nw)) = true
  /\ (forall cur, snd (render (snd (processCommand cmd nw)) cur) = [])
  /\ serial_lines (snd (processCommand cmd nw)) <> [].
Proof.
  assert (H : ends_println (snd (processCommand cmd nw)) = true).
  { unfold processCommand. cbv zeta.
    destruct (WStr.startsWith (WStr.trim cmd) (lit "CONNECT:")).
    { destruct (0 <? _); [apply connectToWiFi_ends | reflexivity]. }
    destruct (WStr.equals (WStr.trim cmd) (lit "STATUS")); [simple_answer |].
    destruct (WStr.equals (WStr.trim cmd) (lit "SCAN"));
      [apply scanNetworks_ends |].
    destruct (WStr.equals (WStr.trim cmd) (lit "DISCONNECT"));
      [simple_answer |].
    destruct (WStr.startsWith (WStr.trim cmd) (lit "TCPCONNECT:")).
    { destruct (11 <? _); [simple_answer | reflexivity]. }
    destruct (WStr.startsWith (WStr.trim cmd) (lit "TCPSEND:"));
      [simple_answer |].
    destruct (WStr.equals (WStr.trim cmd) (lit "TCPCLOSE")); [simple_answer |].
    destruct (WStr.equals (WStr.trim cmd) (lit "IP")); simple_answer. }
  split; [exact H | split].
  - intros cur. now apply ends_println_render.
  - now apply ends_println_render.
Qed.

(** A command other than a connection makes no [delay]. *)
Lemma processCommand_no_sleep (cmd : WString) (nw : N) :
  WStr.startsWith (WStr.trim cmd) (lit "CONNECT:") = false ->
  slept (snd (processCommand cmd nw)) = 0.
Proof.
  intros Hc. unfold processCommand. cbv zeta. rewrite Hc.
  destruct (WStr.equals (WStr.trim cmd) (lit "STATUS")); [simple_answer |].
  destruct (WStr.equals (WStr.trim cmd) (lit "SCAN"));
    [apply scanNetworks_ends |].
  destruct (WStr.equals (WStr.trim cmd) (lit "DISCONNECT"));
    [simple_answer |].
  destruct (WStr.startsWith (WStr.trim cmd) (lit "TCPCONNECT:")).
  { destruct (11 <? _); [simple_answer | reflexivity]. }
  destruct (WStr.startsWith (WStr.trim cmd) (lit "TCPSEND:"));
    [simple_answer |].
  destruct (WStr.equals (WStr.trim cmd) (lit "TCPCLOSE")); [simple_answer |].
  destruct (WStr.equals (WStr.trim cmd) (lit "IP")); simple_answer.
Qed.

(** X13. Only a connection to WiFi makes the firmware wait: a command
    that does not begin with [CONNECT:] is handled without any [delay]. *)
Theorem X13_only_connect_sleeps (cmd : WString) (nw : N) :
  WStr.startsWith (WStr.trim cmd) (lit "CONNECT:") = false ->
  slept (snd (processCommand cmd nw)) = 0.
Proof. apply processCommand_no_sleep. Qed.

(** *** The serial port across ticks *)

Lemma feed_all_app (a b : list ascii) : forall buf,
  feed_all (a ++ b) buf =
    (fst (feed_all a buf) ++ fst (feed_all b (snd (feed_all a buf))),
     snd (feed_all b (snd (feed_all a buf)))).
Proof.
  induction a as [|c a IH]; intros buf.
  - cbn. now destruct (feed_all b buf).
  - cbn [app feed_all].
    destruct (accumulate c buf) as [line buf']. rewrite IH.
    destruct (feed_all a buf') as [l1 b1]. cbn [fst snd].
    destruct (feed_all b b1) as [l2 b2]. cbn [fst snd].
    now destruct line.
Qed.

Lemma feed_all_terminators (ts : list ascii) :
  forallb is_terminator ts = true -> feed_all ts [] = ([], []).
Proof.
  induction ts as [|c ts IH]; intros H; [reflexivity |].
  cbn [forallb] in H. apply andb_true_iff in H. destruct H as [Hc Hts].
  cbn [feed_all]. unfold accumulate. rewrite Hc. cbn [WStr.length].
  change (0 <? WStr.length []) with false. cbv iota.
  now rewrite IH.
Qed.


End Dispatch.

(** X15. A line followed by any run of CR and LF bytes, one or many in
    any order, gives that one command and an empty buffer: CR LF, LF and
    CR framing are all accepted and none gives an empty command. *)
Theorem X15_any_terminator_run_ends_one_line (line terms : list ascii) :
  forallb (fun c => negb (is_terminator c)) line = true ->
  line <> [] ->
  forallb is_terminator terms = true ->
  terms <> [] ->
  feed_all (line ++ terms) [] = ([line], []).
Proof.
  intros Hl Hne Ht Hte. rewrite feed_all_app.
  rewrite feed_all_clean by assumption. cbn [fst snd app].
  destruct terms as [|t ts]; [congruence |].
  cbn [forallb] in Ht. apply andb_true_iff in Ht. destruct Ht as [Ht Hts].
  cbn [feed_all]. unfold accumulate. rewrite Ht, length_pos_iff.
  destruct line; [congruence |]. cbn [non_empty].
  now rewrite feed_all_terminators.
Qed.

Section Ticks.

Context {N : Type} {NP : NetworkProvider N}.

(** *** A command that comes in two ticks *)

Lemma read_loop_clean (p : list ascii) (nw : N) (buf : WString) :
  forallb (fun c => negb (is_terminator c)) p = true ->
  read_loop p (mkWorld nw buf) = (mkWorld nw (buf ++ p), []).
Proof.
  intros Hp. rewrite read_loop_dispatches, feed_all_clean by assumption.
  reflexivity.
Qed.

Lemma read_loop_line (q : list ascii) (t : ascii) (nw : N) (buf : WString) :
  forallb (fun c => negb (is_terminator c)) q = true ->
  is_terminator t = true -> buf ++ q <> [] ->
  read_loop (q ++ [t]) (mkWorld nw buf) =
    (mkWorld (snd (fst (processCommand (buf ++ q) nw))) [],
     snd (processCommand (buf ++ q) nw)).
Proof.
  intros Hq Ht Hne.
  rewrite read_loop_dispatches, feed_all_app, feed_all_clean by assumption.
  cbn [fst snd app feed_all]. unfold accumulate.
  rewrite Ht, length_pos_iff.
  destruct (buf ++ q) as [|c r] eqn:E; [congruence |].
  cbn [non_empty fst snd dispatch_all]. unfold bind, ret.
  destruct (processCommand (c :: r) nw) as [[u n1] e1].
  cbn [fst snd]. now rewrite app_nil_r.
Qed.

(** X14. A command whose bytes come in two ticks is put together again:
    the tick that reads the first piece [p] dispatches nothing, it only
    polls and sleeps, and keeps [p] in the buffer; the tick that reads
    the rest [q] and a terminator dispatches the one command [p ++ q],
    then polls and sleeps, and leaves the buffer empty. *)
Theorem X14_command_split_across_ticks
    (p q : list ascii) (t : ascii) (nw : N) :
  forallb (fun c => negb (is_terminator c)) p = true ->
  forallb (fun c => negb (is_terminator c)) q = true ->
  is_terminator t = true -> p ++ q <> [] ->
  let t1 := loop p (mkWorld nw []) in
  let t2 := loop (q ++ [t]) (fst t1) in
  snd t1 = snd (poll nw) ++ [EvDelay 10]
  /\ serialBuffer (fst t1) = p
  /\ snd t2 =
       snd (processCommand (p ++ q) (net (fst t1)))
       ++ snd (poll (snd (fst (processCommand (p ++ q) (net (fst t1))))))
       ++ [EvDelay 10]
  /\ serialBuffer (fst t2) = [].
Proof.
  intros Hp Hq Ht Hne. cbv zeta.
  assert (H1 : exists n1, fst (loop p (mkWorld nw [])) = mkWorld n1 p).
  { unfold loop. rewrite read_loop_clean by assumption.
    cbn [net serialBuffer app].
    destruct ((bind poll (fun _ => delay 10)) nw) as [[u n2] e2].
    now exists n2. }
  destruct H1 as [n1 H1].
  split; [| split; [| split]].
  - rewrite loop_trace, read_loop_clean by assumption. reflexivity.
  - now rewrite H1.
  - rewrite H1, loop_trace, read_loop_line by assumption. reflexivity.
  - rewrite H1. unfold loop. rewrite read_loop_line by assumption.
    cbn [net serialBuffer].
    destruct ((bind poll (fun _ => delay 10))
                (snd (fst (processCommand (p ++ q) n1)))) as [[u n2] e2].
    reflexivity.
Qed.

(** X16. A tick keeps the buffer free of terminators, and what it leaves
    in the buffer is what the accumulator leaves for the bytes read: the
    poll and the handlers do not touch it. *)
Theorem X16_tick_keeps_buffer_clean (rx : list ascii) (w : @World N) :
  forallb (fun c => negb (is_terminator c)) (serialBuffer w) = true ->
  serialBuffer (fst (loop rx w)) = snd (feed_all rx (serialBuffer w))
  /\ forallb (fun c => negb (is_terminator c)) (serialBuffer (fst (loop rx w)))
       = true.
Proof.
  intros Hb. destruct w as [nw buf]. cbn [serialBuffer] in *.
  assert (Hbuf : serialBuffer (fst (loop rx (mkWorld nw buf)))
                 = snd (feed_all rx buf)).
  { unfold loop. rewrite read_loop_dispatches. cbn [net serialBuffer].
    destruct ((bind poll (fun _ => delay 10))
                (snd (fst (dispatch_all (fst (feed_all rx buf)) nw))))
      as [[u n2] e2].
    reflexivity. }
  split; [exact Hbuf |]. rewrite Hbuf.
  exact (proj2 (feed_all_splits rx buf Hb)).
Qed.

(** *** How long a connection waits *)

(** The time slept by a connection whose wait made [k] rounds. *)
Ltac wait_slept :=
  rewrite <- !app_assoc; cbn [app slept snd];
  rewrite slept_app, slept_poll_rounds; cbn [slept]; lia.

(** The lines printed by a connection whose wait made [k] rounds. *)
Ltac wait_lines :=
  unfold serial_lines; rewrite <- !app_assoc; cbn [app render snd];
  rewrite render_app, render_poll_rounds; cbn [fst snd render app];
  now rewrite app_nil_r.

Lemma not_connected_before_succ (k : nat) (n : N) :
  not_connected_before (S k) n =
    negb (wifi_status n =? WL_CONNECTED)
    && not_connected_before k (elapse 500 n).
Proof.
  unfold not_connected_before. cbn [seq forallb after_sleeps]. f_equal.
  rewrite <- seq_shift. generalize (seq 0 k). intros l.
  induction l as [|j l IH]; [reflexivity |].
  cbn [map forallb after_sleeps]. now rewrite IH.
Qed.

Lemma wait_connected_rounds (k : nat) : forall attempts (n : N),
  attempts + Z.of_nat k <= 20 ->
  not_connected_before k n = true ->
  wifi_status (after_sleeps k n) = WL_CONNECTED
    \/ attempts + Z.of_nat k = 20 ->
  wait_connected attempts n =
    (attempts + Z.of_nat k, after_sleeps k n, poll_rounds k ++ [EvWiFiStatus]).
Proof.
  induction k as [|k IH]; intros attempts n Hle Hnot Hend;
    rewrite wait_connected_step.
  - cbn [after_sleeps poll_rounds app] in *. rewrite Z.add_0_r in *.
    destruct Hend as [Hc | Hc].
    + rewrite Hc, Z.eqb_refl. reflexivity.
    + subst attempts. now rewrite andb_false_r.
  - rewrite not_connected_before_succ in Hnot.
    apply andb_true_iff in Hnot. destruct Hnot as [Hst Hnot].
    rewrite Hst. assert (Hlt : (attempts <? 20) = true)
      by (apply Z.ltb_lt; lia).
    rewrite Hlt. cbn [andb]. cbv zeta.
    rewrite (IH (attempts + 1) (elapse 500 n)); [| lia | exact Hnot |].
    + cbn [fst snd after_sleeps poll_rounds poll_round app].
      replace (attempts + 1 + Z.of_nat k) with (attempts + Z.of_nat (S k))
        by lia.
      reflexivity.
    + cbn [after_sleeps] in Hend. destruct Hend as [Hc | Hc];
        [now left | right; lia].
Qed.

(** X17. The wait of a connection ends at the first poll that sees the
    status [WL_CONNECTED]: when that is the poll after [k <= 20] sleeps,
    the firmware has slept [500 k] ms, printed [k] dots, and reports
    [OK:Connected] and the address; with [k = 0] it does not sleep and
    the line of dots is empty. *)
Theorem X17_connect_succeeds_at_first_connected_poll
    (ssid password : WString) (k : nat) (nw : N) :
  (k <= 20)%nat ->
  not_connected_before k (wifi_begin ssid password nw) = true ->
  wifi_status (after_sleeps k (wifi_begin ssid password nw)) = WL_CONNECTED ->
  snd (fst (connectToWiFi ssid password nw))
    = after_sleeps k (wifi_begin ssid password nw)
  /\ slept (snd (connectToWiFi ssid password nw)) = 500 * Z.of_nat k
  /\ serial_lines (snd (connectToWiFi ssid password nw))
       = [lit "CONNECTING:" ++ ssid; dots k; lit "OK:Connected";
          lit "IP:"
            ++ wifi_localIP (after_sleeps k (wifi_begin ssid password nw))].
Proof.
  intros Hk Hnot Hc.
  unfold connectToWiFi, bind, Serial_print, Serial_println, WiFi_begin,
    WiFi_status, WiFi_localIP, command, query.
  rewrite (wait_connected_rounds k 0 (wifi_begin ssid password nw));
    [| lia | exact Hnot | now left].
  cbn [fst snd]. rewrite Hc, Z.eqb_refl. cbn [fst snd app].
  split; [reflexivity | split].
  - wait_slept.
  - wait_lines.
Qed.

(** X18. When none of the 21 polls sees [WL_CONNECTED], the connection
    gives up after exactly 20 sleeps, 10 seconds, with 20 dots and the
    line [ERROR:Connection failed]; [WiFi.begin] is not undone. *)
Theorem X18_connect_gives_up_after_ten_seconds
    (ssid password : WString) (nw : N) :
  not_connected_before 21 (wifi_begin ssid password nw) = true ->
  snd (fst (connectToWiFi ssid password nw))
    = after_sleeps 20 (wifi_begin ssid password nw)
  /\ slept (snd (connectToWiFi ssid password nw)) = 10000
  /\ serial_lines (snd (connectToWiFi ssid password nw))
       = [lit "CONNECTING:" ++ ssid; dots 20; lit "ERROR:Connection failed"]
  /\ existsb (fun e => match e with EvWiFiDisconnect => true | _ => false end)
       (snd (connectToWiFi ssid password nw)) = false.
Proof.
  intros Hnot.
  assert (H20 : not_connected_before 20 (wifi_begin ssid password nw) = true
                /\ (wifi_status (after_sleeps 20 (wifi_begin ssid password nw))
                    =? WL_CONNECTED) = false).
  { unfold not_connected_before in *.
    change (seq 0 21) with (seq 0 20 ++ [20%nat]) in Hnot.
    rewrite forallb_app in Hnot. apply andb_true_iff in Hnot.
    destruct Hnot as [H1 H2]. split; [exact H1 |].
    cbn [forallb] in H2. rewrite andb_true_r in H2.
    now apply negb_true_iff in H2. }
  destruct H20 as [H20 Hlast].
  unfold connectToWiFi, bind, Serial_print, Serial_println, WiFi_begin,
    WiFi_status, WiFi_localIP, command, query.
  rewrite (wait_connected_rounds 20 0 (wifi_begin ssid password nw));
    [| lia | exact H20 | now right].
  cbn [fst snd]. rewrite Hlast. cbn [fst snd app].
  split; [reflexivity | split; [| split]].
  - change 10000 with (500 * Z.of_nat 20). wait_slept.
  - wait_lines.
  - reflexivity.
Qed.

(** *** The length of a tick *)

Lemma slept_drain_events (k : nat) : slept (drain_events k) = 0.
Proof. induction k as [|k IH]; [reflexivity | exact IH]. Qed.

Lemma poll_quiet (nw : N) :
  slept (snd (poll nw)) = 0
  /\ existsb is_wifi_event (snd (poll nw)) = false.
Proof.
  destruct (drain_reads_all [] nw eq_refl) as (Hd & _ & _).
  unfold poll, bind, tcpClient_connected, tcpClient_available, query,
    Serial_print, Serial_println, ret.
  destruct (tcp_connected nw); [| split; reflexivity].
  destruct (tcp_available nw =? 0); cbn [negb]; [split; reflexivity |].
  rewrite Hd. cbn [fst snd app slept existsb is_wifi_event orb].
  rewrite slept_app, slept_drain_events, existsb_app.
  split; [reflexivity |].
  cbn [existsb is_wifi_event orb]. rewrite orb_false_r.
  generalize (Z.to_nat (tcp_available nw)). intros k.
  induction k as [|k IH]; [reflexivity | exact IH].
Qed.

(** X19. With a session up and nothing to read, the poll asks the socket
    twice and does nothing else: it prints no line.  In every case the
    poll makes no call on the association side and does not sleep. *)
Theorem X19_idle_poll_is_silent (nw : N) :
  (tcp_connected nw = true -> tcp_available nw = 0 ->
   poll nw = (tt, nw, [EvTcpConnected; EvTcpAvailable]))
  /\ slept (snd (poll nw)) = 0
  /\ existsb is_wifi_event (snd (poll nw)) = false.
Proof.
  split; [| apply poll_quiet].
  intros Hup Hav.
  unfold poll, bind, tcpClient_connected, tcpClient_available, query, ret.
  now rewrite Hup, Hav.
Qed.

Lemma dispatch_all_no_sleep (lines : list WString) : forall (nw : N),
  forallb (fun l => negb (WStr.startsWith (WStr.trim l) (lit "CONNECT:")))
    lines = true ->
  slept (snd (dispatch_all lines nw)) = 0.
Proof.
  induction lines as [|l lines IH]; intros nw H; [reflexivity |].
  cbn [forallb] in H. apply andb_true_iff in H. destruct H as [Hl Hr].
  apply negb_true_iff in Hl.
  pose proof (processCommand_no_sleep l nw Hl) as Hs.
  cbn [dispatch_all]. unfold bind.
  destruct (processCommand l nw) as [[u n1] e1]. cbn [snd] in Hs.
  specialize (IH n1 Hr).
  destruct (dispatch_all lines n1) as [[u2 n2] e2]. cbn [snd] in *.
  rewrite slept_app. lia.
Qed.

(** X20. A tick in which no line read is a connection command sleeps
    for the 10 ms at its end and no more. *)
Theorem X20_tick_without_connect_takes_10ms (rx : list ascii) (w : @World N) :
  forallb (fun l => negb (WStr.startsWith (WStr.trim l) (lit "CONNECT:")))
    (fst (feed_all rx (serialBuffer w))) = true ->
  slept (snd (loop rx w)) = 10.
Proof.
  intros H. rewrite loop_trace. destruct w as [nw buf].
  rewrite read_loop_dispatches. cbn [fst snd net serialBuffer] in *.
  rewrite !slept_app, dispatch_all_no_sleep by assumption.
  rewrite (proj1 (poll_quiet _)). reflexivity.
Qed.

End Ticks.

(* ================================================================== *)
(** ** Further runs on the simulated providers *)
(* ================================================================== *)

Lemma X1_surrounding_blanks_ignored_witness :
  processCommand (lit "  STATUS ") sim_idle
    = processCommand (lit "STATUS") sim_idle.
Proof.
  exact (X1_surrounding_blanks_ignored (lit "  ") (lit "STATUS") (lit " ")
           sim_idle eq_refl eq_refl).
Defined.

Lemma X2_unknown_command_echo_witness :
  serial_lines (snd (processCommand (lit "FOO:bar") sim_idle))
    = [lit "ERROR:Unknown command: FOO:bar"]
  /\ serial_lines (snd (processCommand (lit "   ") sim_idle))
     = [lit "ERROR:Unknown command: "].
Proof.
  split.
  - exact (proj2 (X2_unknown_command_echo (lit "FOO:bar") sim_idle eq_refl)).
  - exact (proj2 (X2_unknown_command_echo (lit "   ") sim_idle eq_refl)).
Defined.

Lemma X3_exact_verbs_take_no_argument_witness :
  processCommand (lit "STATUS:now") sim_idle
    = (tt, sim_idle, [EvSerialPrint (lit "ERROR:Unknown command: ");
                      EvSerialPrintln (lit "STATUS:now")])
  /\ processCommand (lit "STATUS" ++ "000"%char :: lit "x") sim_idle
     = processCommand (lit "STATUS") sim_idle.
Proof.
  split.
  - exact (proj1 (@X3_exact_verbs_take_no_argument SimNet SimProvider
                    (lit "STATUS") (lit ":now") sim_idle (or_introl eq_refl))
             ltac:(discriminate) eq_refl eq_refl).
  - exact (proj2 (@X3_exact_verbs_take_no_argument SimNet SimProvider
                    (lit "STATUS") (lit "x") sim_idle (or_introl eq_refl))
             eq_refl).
Defined.

Lemma X4_tcpclose_witness :
  serial_lines
    (snd (dispatch_all [lit "TCPCLOSE"; lit "TCPCLOSE"]
            (mkSim 3 None true [] [])))
    = [lit "OK:TCP connection closed"; lit "ERROR:No active TCP connection"]
  /\ processCommand (lit "TCPCLOSE") sim_idle
     = (tt, sim_idle,
        [EvTcpConnected;
         EvSerialPrintln (lit "ERROR:No active TCP connection")]).
Proof.
  split.
  - exact (proj2 (proj2 (X4_tcpclose (mkSim 3 None true [] [])))
             eq_refl eq_refl).
  - exact (proj1 (proj2 (X4_tcpclose sim_idle)) eq_refl).
Defined.

Lemma X8_tcpsend_with_session_witness :
  processCommand (lit "TCPSEND: GET /a:b  ") (mkSim 3 None true [] [])
    = (tt, mkSim 3 None true [] [],
       [EvTcpConnected; EvTcpPrint (lit " GET /a:b");
        EvSerialPrintln (lit "OK:Data sent")])
  /\ rtrim (lit "a:b") = lit "a:b".
Proof.
  split.
  - exact (proj1 (X8_tcpsend_with_session (lit " GET /a:b  ")
                    (mkSim 3 None true [] []) eq_refl)).
  - exact (proj2 (X8_tcpsend_with_session (lit "a:b")
                    (mkSim 3 None true [] []) eq_refl) eq_refl).
Defined.

Lemma X10_connect_empty_password_witness :
  processCommand (lit "CONNECT:cafe:") sim_idle
    = connectToWiFi (lit "cafe") [] sim_idle.
Proof.
  exact (X10_connect_empty_password (lit "cafe") sim_idle eq_refl eq_refl).
Defined.

Lemma X11_scan_failure_printed_as_count_witness :
  serial_lines (snd (scanNetworks tt))
    = [lit "SCANNING..."; lit "SCAN:Found -2 networks"].
Proof.
  exact (proj2 (X11_scan_failure_printed_as_count tt eq_refl)).
Defined.

Lemma X13_only_connect_sleeps_witness :
  slept (snd (processCommand (lit "SCAN")
                (mkSim 6 None false [] [(lit "ap", -40, 0)]))) = 0.
Proof.
  exact (X13_only_connect_sleeps (lit "SCAN")
           (mkSim 6 None false [] [(lit "ap", -40, 0)]) eq_refl).
Defined.

Lemma X15_any_terminator_run_ends_one_line_witness :
  feed_all (lit "STATUS" ++ ["013"%char; "010"%char]) []
    = ([lit "STATUS"], []).
Proof.
  exact (X15_any_terminator_run_ends_one_line (line := lit "STATUS")
           (terms := ["013"%char; "010"%char])
           eq_refl ltac:(discriminate) eq_refl ltac:(discriminate)).
Defined.

Lemma X16_tick_keeps_buffer_clean_witness :
  serialBuffer
    (fst (loop (lit "IP" ++ ["010"%char] ++ lit "SC") (mkWorld sim_idle [])))
    = lit "SC".
Proof.
  exact (proj1 (X16_tick_keeps_buffer_clean
                  (lit "IP" ++ ["010"%char] ++ lit "SC")
                  (mkWorld sim_idle []) eq_refl)).
Defined.

Lemma X17_connect_succeeds_at_first_connected_poll_witness :
  slept (snd (connectToWiFi (lit "home") (lit "secret") sim_idle)) = 1500
  /\ serial_lines (snd (connectToWiFi (lit "home") (lit "secret") sim_idle))
     = [lit "CONNECTING:home"; lit "..."; lit "OK:Connected";
        lit "IP:192.168.4.2"].
Proof.
  pose proof (X17_connect_succeeds_at_first_connected_poll
                (lit "home") (lit "secret") (k := 3) sim_idle
                ltac:(lia) eq_refl eq_refl) as (_ & H2 & H3).
  split; [exact H2 | exact H3].
Defined.

Lemma X18_connect_gives_up_after_ten_seconds_witness :
  slept (snd (connectToWiFi (lit "home") (lit "secret") tt)) = 10000
  /\ serial_lines (snd (connectToWiFi (lit "home") (lit "secret") tt))
     = [lit "CONNECTING:home"; lit "...................."; 
        lit "ERROR:Connection failed"].
Proof.
  pose proof (X18_connect_gives_up_after_ten_seconds
                (lit "home") (lit "secret") tt eq_refl) as (_ & H2 & H3 & _).
  split; [exact H2 | exact H3].
Defined.

Lemma X19_idle_poll_is_silent_witness :
  poll (mkSim 3 None true [] [])
    = (tt, mkSim 3 None true [] [], [EvTcpConnected; EvTcpAvailable]).
Proof.
  exact (proj1 (X19_idle_poll_is_silent (mkSim 3 None true [] []))
           eq_refl eq_refl).
Defined.

Lemma X20_tick_without_connect_takes_10ms_witness :
  slept (snd (loop (lit "STATUS" ++ ["010"%char] ++ lit "SCAN" ++ ["013"%char])
                (mkWorld sim_idle []))) = 10.
Proof.
  exact (X20_tick_without_connect_takes_10ms
           (lit "STATUS" ++ ["010"%char] ++ lit "SCAN" ++ ["013"%char])
           (mkWorld sim_idle []) eq_refl).
Defined.


Lemma X14_command_split_across_ticks_witness :
  serialBuffer (fst (loop (lit "STA") (mkWorld sim_idle []))) = lit "STA"
  /\ serial_lines
       (snd (loop (lit "TUS" ++ ["010"%char])
               (fst (loop (lit "STA") (mkWorld sim_idle [])))))
     = [lit "STATUS:DISCONNECTED"].
Proof.
  pose proof (X14_command_split_across_ticks (lit "STA") (lit "TUS")
                "010"%char sim_idle eq_refl eq_refl eq_refl
                ltac:(discriminate)) as (_ & H2 & H3 & _).
  split; [exact H2 |]. rewrite H3. reflexivity.
Defined.
